(** * The HAL configuration generator (tools/config_generator.py)

    A shallow embedding of the configuration model, the platform registry,
    the three text renderers, the JSON save/load pair and the override path
    of [main], followed by the properties established about them.

    Conventions.
    - A Python [str] is a [string] of UTF-8 bytes; a Python [int] is a [Z].
    - [self.platforms] is a [gmap] from [PlatformType] to the objects stored
      in it.  The iteration order of the dict is used by [list_platforms]
      only, which is not modelled.
    - Statements that can raise are computations in the monad [M]; an
      exception that no [try] catches is the result of the computation.
    - The file system, [os.path] and the parser behind [json.load] belong to
      the platform and to the Python library; the generator is parametrised
      by them (section [Generator]).  [MemIO] gives one concrete instance. *)

From stdpp Require Import base gmap strings list.
From Stdlib Require Import ZArith String Ascii DecimalString.

Open Scope string_scope.

(** ** Text helpers: the pieces of Python's [str] the generator relies on *)

Definition dq : string := String (ascii_of_nat 34) EmptyString.
Definition tab : string := String (ascii_of_nat 9) EmptyString.
Definition nl : ascii := ascii_of_nat 10.

(** [str(n)] for an [int]: its decimal digits.  An interpreter that limits
    the conversion (4300 digits by default since CPython 3.11) raises
    [ValueError] beyond its limit; [str_int] is the text below it. *)
Definition str_int (n : Z) : string := NilZero.string_of_int (Z.to_int n).

(** [str.upper] on the ASCII range (the identifiers' values are ASCII). *)
Definition upper_ascii (c : ascii) : ascii :=
  let n := nat_of_ascii c in
  if (97 <=? n)%nat && (n <=? 122)%nat then ascii_of_nat (n - 32) else c.

Fixpoint upper (s : string) : string :=
  match s with
  | EmptyString => EmptyString
  | String c s' => String (upper_ascii c) (upper s')
  end.

(** [text.split('\n')]: the lines of a text. *)
Fixpoint lines_from (cur : string) (s : string) : list string :=
  match s with
  | EmptyString => [String.rev cur]
  | String c s' =>
      if Ascii.eqb c nl then String.rev cur :: lines_from EmptyString s'
      else lines_from (String c cur) s'
  end.

Definition lines (s : string) : list string := lines_from EmptyString s.

Definition has_line (l text : string) : bool :=
  existsb (String.eqb l) (lines text).

(** [needle in hay] on strings. *)
Fixpoint contains (needle hay : string) : bool :=
  String.prefix needle hay ||
  match hay with
  | EmptyString => false
  | String _ hay' => contains needle hay'
  end.

(** ** The configuration model (lines 14-103) *)

Inductive PlatformType := STM32F1 | STM32F4 | STM32F7 | RISC_V | X86_64.

(** [platform.value] *)
Definition value (p : PlatformType) : string :=
  match p with
  | STM32F1 => "stm32f1"
  | STM32F4 => "stm32f4"
  | STM32F7 => "stm32f7"
  | RISC_V => "riscv"
  | X86_64 => "x86_64"
  end.

(** The member's name, as [str(platform)] prints it after the class name. *)
Definition member_name (p : PlatformType) : string :=
  match p with
  | STM32F1 => "STM32F1"
  | STM32F4 => "STM32F4"
  | STM32F7 => "STM32F7"
  | RISC_V => "RISC_V"
  | X86_64 => "X86_64"
  end.

(** [for platform in PlatformType], in declaration order. *)
Definition all_platform_types : list PlatformType :=
  [STM32F1; STM32F4; STM32F7; RISC_V; X86_64].

#[global] Instance PlatformType_eq_dec : EqDecision PlatformType.
Proof. solve_decision. Defined.

#[global] Instance PlatformType_countable : Countable PlatformType.
Proof.
  refine (inj_countable'
            (fun p => match p with
                      | STM32F1 => 0 | STM32F4 => 1 | STM32F7 => 2
                      | RISC_V => 3 | X86_64 => 4
                      end)
            (fun n => match n with
                      | 0 => STM32F1 | 1 => STM32F4 | 2 => STM32F7
                      | 3 => RISC_V | _ => X86_64
                      end) _).
  by intros [].
Defined.

Record ClockConfig := {
  system_clock_freq : Z;
  cpu_clock_freq : Z;
  apb1_clock_freq : Z;
  apb2_clock_freq : Z;
  timer_clock_freq : Z;
  timer_resolution_ns : Z
}.

Record MemoryConfig := {
  flash_size_kb : Z;
  ram_size_kb : Z;
  ccm_size_kb : Z;
  heap_size_kb : Z;
  stack_size_kb : Z
}.

Record PeripheralConfig := {
  gpio_port_count : Z;
  uart_count : Z;
  spi_count : Z;
  i2c_count : Z;
  adc_count : Z;
  dac_count : Z;
  timer_count : Z;
  dma_controller_count : Z;
  dma_stream_count : Z
}.

Record FeatureConfig := {
  has_fpu : bool;
  has_dsp : bool;
  has_mpu : bool;
  has_cache : bool;
  has_dma : bool;
  has_crypto : bool;
  has_ethernet : bool;
  has_usb : bool
}.

Record ModuleConfig := {
  power_management_enabled : bool;
  memory_monitor_enabled : bool;
  watchdog_enabled : bool;
  gpio_abstraction_enabled : bool;
  uart_abstraction_enabled : bool;
  spi_abstraction_enabled : bool;
  i2c_abstraction_enabled : bool;
  adc_abstraction_enabled : bool;
  dac_abstraction_enabled : bool;
  dma_abstraction_enabled : bool;
  security_enabled : bool;
  network_enabled : bool;
  ota_enabled : bool;
  debug_tools_enabled : bool
}.

Record DebugConfig := {
  debug_enabled : bool;
  error_check_enabled : bool;
  performance_profiling_enabled : bool;
  system_tracing_enabled : bool;
  memory_leak_detection_enabled : bool
}.

(** A PlatformConfig whose fields hold what their annotations say: the
    shape of the objects built by [_init_default_platforms]. *)
Record PlatformConfig := {
  platform_type : PlatformType;
  platform_name : string;
  clock : ClockConfig;
  memory : MemoryConfig;
  peripheral : PeripheralConfig;
  feature : FeatureConfig;
  module : ModuleConfig;
  debug : DebugConfig
}.

(** ** Python values that reach the generator at run time

    [json.load] builds values out of [None], [bool], [int], [float], [str],
    [list] and [dict] (string keys, insertion order).  [asdict] adds one more
    kind of leaf: the [PlatformType] member held by a preset.  A [float] is
    kept as the text [float.__repr__] prints for it; the encoder writes that
    text, except for the three floats that are not finite. *)

#[warnings="-register-all"] Inductive pyval :=
| PNone
| PBool (b : bool)
| PInt (n : Z)
| PFloat (repr : string)
| PStr (s : string)
| PList (l : list pyval)
| PDict (d : list (string * pyval))
| PEnum (p : PlatformType).

(** [type(o).__name__] *)
Definition type_name (o : pyval) : string :=
  match o with
  | PNone => "NoneType"
  | PBool _ => "bool"
  | PInt _ => "int"
  | PFloat _ => "float"
  | PStr _ => "str"
  | PList _ => "list"
  | PDict _ => "dict"
  | PEnum _ => "PlatformType"
  end.

(** [d.get(k)] on an insertion-ordered dict. *)
Fixpoint dict_get (k : string) (d : list (string * pyval)) : option pyval :=
  match d with
  | [] => None
  | (k', v) :: d' => if String.eqb k k' then Some v else dict_get k d'
  end.

Inductive exn :=
| TypeError (msg : string)
| AttributeError (msg : string)
| ValueError (msg : string)
| OSError (msg : string).

(** [str(e)] *)
Definition exn_str (e : exn) : string :=
  match e with
  | TypeError msg | AttributeError msg | ValueError msg | OSError msg => msg
  end.

Definition is_TypeError (e : exn) : bool :=
  match e with TypeError _ => true | _ => false end.

Definition is_AttributeError (e : exn) : bool :=
  match e with AttributeError _ => true | _ => false end.

(** A PlatformConfig object as [load_config_json] builds it: the dataclass
    constructor stores its eight arguments as they are, so every field holds
    the value [json.load] produced for its key. *)
Record RawConfig := {
  raw_platform_type : pyval;
  raw_platform_name : pyval;
  raw_clock : pyval;
  raw_memory : pyval;
  raw_peripheral : pyval;
  raw_feature : pyval;
  raw_module : pyval;
  raw_debug : pyval
}.

(** The PlatformConfig objects of a run: the ones [_init_default_platforms]
    constructs and the ones [load_config_json] constructs. *)
Inductive config_obj :=
| Built (c : PlatformConfig)
| Loaded (r : RawConfig).

Definition is_Built (o : option config_obj) : bool :=
  match o with Some (Built _) => true | _ => false end.

(** [dataclasses.asdict]: dataclass instances become dicts in field order,
    recursively; dicts and lists are rebuilt, every other value is copied. *)
Definition asdict_clock (c : ClockConfig) : pyval :=
  PDict [("system_clock_freq", PInt (system_clock_freq c));
         ("cpu_clock_freq", PInt (cpu_clock_freq c));
         ("apb1_clock_freq", PInt (apb1_clock_freq c));
         ("apb2_clock_freq", PInt (apb2_clock_freq c));
         ("timer_clock_freq", PInt (timer_clock_freq c));
         ("timer_resolution_ns", PInt (timer_resolution_ns c))].

Definition asdict_memory (m : MemoryConfig) : pyval :=
  PDict [("flash_size_kb", PInt (flash_size_kb m));
         ("ram_size_kb", PInt (ram_size_kb m));
         ("ccm_size_kb", PInt (ccm_size_kb m));
         ("heap_size_kb", PInt (heap_size_kb m));
         ("stack_size_kb", PInt (stack_size_kb m))].

Definition asdict_peripheral (p : PeripheralConfig) : pyval :=
  PDict [("gpio_port_count", PInt (gpio_port_count p));
         ("uart_count", PInt (uart_count p));
         ("spi_count", PInt (spi_count p));
         ("i2c_count", PInt (i2c_count p));
         ("adc_count", PInt (adc_count p));
         ("dac_count", PInt (dac_count p));
         ("timer_count", PInt (timer_count p));
         ("dma_controller_count", PInt (dma_controller_count p));
         ("dma_stream_count", PInt (dma_stream_count p))].

Definition asdict_feature (f : FeatureConfig) : pyval :=
  PDict [("has_fpu", PBool (has_fpu f));
         ("has_dsp", PBool (has_dsp f));
         ("has_mpu", PBool (has_mpu f));
         ("has_cache", PBool (has_cache f));
         ("has_dma", PBool (has_dma f));
         ("has_crypto", PBool (has_crypto f));
         ("has_ethernet", PBool (has_ethernet f));
         ("has_usb", PBool (has_usb f))].

Definition asdict_module (m : ModuleConfig) : pyval :=
  PDict [("power_management_enabled", PBool (power_management_enabled m));
         ("memory_monitor_enabled", PBool (memory_monitor_enabled m));
         ("watchdog_enabled", PBool (watchdog_enabled m));
         ("gpio_abstraction_enabled", PBool (gpio_abstraction_enabled m));
         ("uart_abstraction_enabled", PBool (uart_abstraction_enabled m));
         ("spi_abstraction_enabled", PBool (spi_abstraction_enabled m));
         ("i2c_abstraction_enabled", PBool (i2c_abstraction_enabled m));
         ("adc_abstraction_enabled", PBool (adc_abstraction_enabled m));
         ("dac_abstraction_enabled", PBool (dac_abstraction_enabled m));
         ("dma_abstraction_enabled", PBool (dma_abstraction_enabled m));
         ("security_enabled", PBool (security_enabled m));
         ("network_enabled", PBool (network_enabled m));
         ("ota_enabled", PBool (ota_enabled m));
         ("debug_tools_enabled", PBool (debug_tools_enabled m))].

Definition asdict_debug (d : DebugConfig) : pyval :=
  PDict [("debug_enabled", PBool (debug_enabled d));
         ("error_check_enabled", PBool (error_check_enabled d));
         ("performance_profiling_enabled", PBool (performance_profiling_enabled d));
         ("system_tracing_enabled", PBool (system_tracing_enabled d));
         ("memory_leak_detection_enabled", PBool (memory_leak_detection_enabled d))].

Definition asdict (config : config_obj) : pyval :=
  match config with
  | Built c =>
      PDict [("platform_type", PEnum (platform_type c));
             ("platform_name", PStr (platform_name c));
             ("clock", asdict_clock (clock c));
             ("memory", asdict_memory (memory c));
             ("peripheral", asdict_peripheral (peripheral c));
             ("feature", asdict_feature (feature c));
             ("module", asdict_module (module c));
             ("debug", asdict_debug (debug c))]
  | Loaded r =>
      PDict [("platform_type", raw_platform_type r);
             ("platform_name", raw_platform_name r);
             ("clock", raw_clock r);
             ("memory", raw_memory r);
             ("peripheral", raw_peripheral r);
             ("feature", raw_feature r);
             ("module", raw_module r);
             ("debug", raw_debug r)]
  end.

(** ** [json.dump(obj, f, indent=2, ensure_ascii=False)]

    The encoder walks the value and hands the text to [f.write] piece by
    piece; an object it cannot encode raises [TypeError] after the pieces
    before it were written.  [json_encode] returns the text emitted and the
    exception that stopped it, if any. *)

Definition hex_digit (n : nat) : string :=
  String (ascii_of_nat (if (n <? 10)%nat then 48 + n else 87 + n)) EmptyString.

(** [ESCAPE_DCT] of [json.encoder], with [ensure_ascii=False]. *)
Definition escape_char (c : ascii) : string :=
  let n := nat_of_ascii c in
  if (n =? 34)%nat then "\" ++ dq
  else if (n =? 92)%nat then "\\"
  else if (n =? 8)%nat then "\b"
  else if (n =? 12)%nat then "\f"
  else if (n =? 10)%nat then "\n"
  else if (n =? 13)%nat then "\r"
  else if (n =? 9)%nat then "\t"
  else if (n <? 32)%nat then "\u00" ++ hex_digit (n / 16) ++ hex_digit (n mod 16)
  else String c EmptyString.

Fixpoint escape (s : string) : string :=
  match s with
  | EmptyString => EmptyString
  | String c s' => escape_char c ++ escape s'
  end.

(** [encode_basestring] *)
Definition encode_basestring (s : string) : string := dq ++ escape s ++ dq.

Fixpoint indent_by (level : nat) : string :=
  match level with
  | O => EmptyString
  | S n => "  " ++ indent_by n
  end.

Definition newline_indent (level : nat) : string :=
  String nl EmptyString ++ indent_by level.

(** [floatstr] of [json.encoder] with [allow_nan=True]: [float.__repr__],
    but [NaN], [Infinity] and [-Infinity] for the floats whose repr is
    [nan], [inf] and [-inf]. *)
Definition floatstr (repr : string) : string :=
  if String.eqb repr "nan" then "NaN"
  else if String.eqb repr "inf" then "Infinity"
  else if String.eqb repr "-inf" then "-Infinity"
  else repr.

Definition not_serializable (o : pyval) : exn :=
  TypeError ("Object of type " ++ type_name o ++ " is not JSON serializable").

Fixpoint json_encode (level : nat) (o : pyval) {struct o} : string * option exn :=
  match o with
  | PNone => ("null", None)
  | PBool true => ("true", None)
  | PBool false => ("false", None)
  | PInt n => (str_int n, None)
  | PFloat repr => (floatstr repr, None)
  | PStr s => (encode_basestring s, None)
  | PList [] => ("[]", None)
  | PList ((_ :: _) as l) =>
      let fix items (first : bool) (l : list pyval) : string * option exn :=
        match l with
        | [] => (newline_indent level ++ "]", None)
        | v :: l' =>
            let sep := if first then EmptyString else "," ++ newline_indent (S level) in
            match json_encode (S level) v with
            | (out, Some e) => (sep ++ out, Some e)
            | (out, None) =>
                let '(rest, r) := items false l' in (sep ++ out ++ rest, r)
            end
        end in
      let '(out, r) := items true l in
      ("[" ++ newline_indent (S level) ++ out, r)
  | PDict [] => ("{}", None)
  | PDict ((_ :: _) as d) =>
      let fix items (first : bool) (d : list (string * pyval)) : string * option exn :=
        match d with
        | [] => (newline_indent level ++ "}", None)
        | (k, v) :: d' =>
            let sep := if first then EmptyString else "," ++ newline_indent (S level) in
            let key := sep ++ encode_basestring k ++ ": " in
            match json_encode (S level) v with
            | (out, Some e) => (key ++ out, Some e)
            | (out, None) =>
                let '(rest, r) := items false d' in (key ++ out ++ rest, r)
            end
        end in
      let '(out, r) := items true d in
      ("{" ++ newline_indent (S level) ++ out, r)
  | PEnum _ => (EmptyString, Some (not_serializable o))
  end.

(** [PlatformConfig] called with [config_dict] unpacked into keyword
    arguments: the generated [__init__] takes the eight
    fields as required arguments without defaults and without converting or
    checking the values it is given. *)
Definition field_names : list string :=
  ["platform_type"; "platform_name"; "clock"; "memory";
   "peripheral"; "feature"; "module"; "debug"].

Definition is_field_name (k : string) : bool :=
  existsb (String.eqb k) field_names.

Definition PlatformConfig_new (config_dict : pyval) : exn + config_obj :=
  match config_dict with
  | PDict d =>
      match List.find (fun kv => negb (is_field_name (fst kv))) d with
      | Some (k, _) =>
          inl (TypeError ("__init__() got an unexpected keyword argument '" ++ k ++ "'"))
      | None =>
          match dict_get "platform_type" d, dict_get "platform_name" d,
                dict_get "clock" d, dict_get "memory" d,
                dict_get "peripheral" d, dict_get "feature" d,
                dict_get "module" d, dict_get "debug" d with
          | Some ty, Some name, Some clk, Some mem,
            Some per, Some feat, Some mdl, Some dbg =>
              inr (Loaded {| raw_platform_type := ty; raw_platform_name := name;
                             raw_clock := clk; raw_memory := mem;
                             raw_peripheral := per; raw_feature := feat;
                             raw_module := mdl; raw_debug := dbg |})
          | _, _, _, _, _, _, _, _ =>
              inl (TypeError "__init__() missing required positional arguments")
          end
      end
  | _ =>
      inl (TypeError ("argument after ** must be a mapping, not " ++ type_name config_dict))
  end.

(** ** The built-in presets ([_init_default_platforms], lines 112-308) *)

Definition stm32f4_config : PlatformConfig := {|
  platform_type := STM32F4;
  platform_name := "STM32F407VGT6";
  clock := {|
    system_clock_freq := 168000000;
    cpu_clock_freq := 168000000;
    apb1_clock_freq := 84000000;
    apb2_clock_freq := 168000000;
    timer_clock_freq := 84000000;
    timer_resolution_ns := 11
  |};
  memory := {|
    flash_size_kb := 1024;
    ram_size_kb := 128;
    ccm_size_kb := 64;
    heap_size_kb := 64;
    stack_size_kb := 16
  |};
  peripheral := {|
    gpio_port_count := 9;
    uart_count := 6;
    spi_count := 3;
    i2c_count := 3;
    adc_count := 3;
    dac_count := 2;
    timer_count := 14;
    dma_controller_count := 2;
    dma_stream_count := 8
  |};
  feature := {|
    has_fpu := true;
    has_dsp := true;
    has_mpu := true;
    has_cache := false;
    has_dma := true;
    has_crypto := false;
    has_ethernet := true;
    has_usb := true
  |};
  module := {|
    power_management_enabled := true;
    memory_monitor_enabled := true;
    watchdog_enabled := true;
    gpio_abstraction_enabled := true;
    uart_abstraction_enabled := true;
    spi_abstraction_enabled := true;
    i2c_abstraction_enabled := true;
    adc_abstraction_enabled := true;
    dac_abstraction_enabled := true;
    dma_abstraction_enabled := true;
    security_enabled := false;
    network_enabled := true;
    ota_enabled := true;
    debug_tools_enabled := true
  |};
  debug := {|
    debug_enabled := true;
    error_check_enabled := true;
    performance_profiling_enabled := true;
    system_tracing_enabled := true;
    memory_leak_detection_enabled := true
  |}
|}.

Definition stm32f1_config : PlatformConfig := {|
  platform_type := STM32F1;
  platform_name := "STM32F103VET6";
  clock := {|
    system_clock_freq := 72000000;
    cpu_clock_freq := 72000000;
    apb1_clock_freq := 36000000;
    apb2_clock_freq := 72000000;
    timer_clock_freq := 72000000;
    timer_resolution_ns := 13
  |};
  memory := {|
    flash_size_kb := 512;
    ram_size_kb := 64;
    ccm_size_kb := 0;
    heap_size_kb := 32;
    stack_size_kb := 8
  |};
  peripheral := {|
    gpio_port_count := 7;
    uart_count := 5;
    spi_count := 3;
    i2c_count := 2;
    adc_count := 2;
    dac_count := 0;
    timer_count := 8;
    dma_controller_count := 2;
    dma_stream_count := 7
  |};
  feature := {|
    has_fpu := false;
    has_dsp := false;
    has_mpu := false;
    has_cache := false;
    has_dma := true;
    has_crypto := false;
    has_ethernet := false;
    has_usb := true
  |};
  module := {|
    power_management_enabled := true;
    memory_monitor_enabled := true;
    watchdog_enabled := true;
    gpio_abstraction_enabled := true;
    uart_abstraction_enabled := true;
    spi_abstraction_enabled := true;
    i2c_abstraction_enabled := true;
    adc_abstraction_enabled := true;
    dac_abstraction_enabled := false;
    dma_abstraction_enabled := true;
    security_enabled := false;
    network_enabled := false;
    ota_enabled := false;
    debug_tools_enabled := true
  |};
  debug := {|
    debug_enabled := true;
    error_check_enabled := true;
    performance_profiling_enabled := false;
    system_tracing_enabled := true;
    memory_leak_detection_enabled := true
  |}
|}.

Definition stm32f7_config : PlatformConfig := {|
  platform_type := STM32F7;
  platform_name := "STM32F767VIT6";
  clock := {|
    system_clock_freq := 216000000;
    cpu_clock_freq := 216000000;
    apb1_clock_freq := 54000000;
    apb2_clock_freq := 108000000;
    timer_clock_freq := 108000000;
    timer_resolution_ns := 9
  |};
  memory := {|
    flash_size_kb := 2048;
    ram_size_kb := 512;
    ccm_size_kb := 0;
    heap_size_kb := 256;
    stack_size_kb := 32
  |};
  peripheral := {|
    gpio_port_count := 11;
    uart_count := 8;
    spi_count := 6;
    i2c_count := 4;
    adc_count := 3;
    dac_count := 2;
    timer_count := 17;
    dma_controller_count := 2;
    dma_stream_count := 8
  |};
  feature := {|
    has_fpu := true;
    has_dsp := true;
    has_mpu := true;
    has_cache := true;
    has_dma := true;
    has_crypto := true;
    has_ethernet := true;
    has_usb := true
  |};
  module := {|
    power_management_enabled := true;
    memory_monitor_enabled := true;
    watchdog_enabled := true;
    gpio_abstraction_enabled := true;
    uart_abstraction_enabled := true;
    spi_abstraction_enabled := true;
    i2c_abstraction_enabled := true;
    adc_abstraction_enabled := true;
    dac_abstraction_enabled := true;
    dma_abstraction_enabled := true;
    security_enabled := true;
    network_enabled := true;
    ota_enabled := true;
    debug_tools_enabled := true
  |};
  debug := {|
    debug_enabled := true;
    error_check_enabled := true;
    performance_profiling_enabled := true;
    system_tracing_enabled := true;
    memory_leak_detection_enabled := true
  |}
|}.

(** [self.platforms] after [__init__]: the three assignments, in the order
    the source makes them. *)
Definition platforms_init : gmap PlatformType config_obj :=
  <[STM32F7 := Built stm32f7_config]>
    (<[STM32F1 := Built stm32f1_config]>
       (<[STM32F4 := Built stm32f4_config]> ∅)).

(** ** The header text (lines 319-438) *)

Definition header_body (platform : PlatformType) (config : PlatformConfig) : string :=
  "/**
 * @file hw_config_generated.h
 * @brief RTOS硬件配置 - 自动生成 (" ++ platform_name config ++ ")
 * @author Config Generator Tool
 * @date 2024
 */

#ifndef __RTOS_HW_CONFIG_GENERATED_H__
#define __RTOS_HW_CONFIG_GENERATED_H__

/* 平台标识 */
#define RTOS_PLATFORM_NAME                " ++ dq ++ platform_name config ++ dq ++ "
#define RTOS_PLATFORM_TYPE                " ++ upper (value platform) ++ "

/* 时钟配置 */
#define RTOS_HW_SYSTEM_CLOCK_FREQ          " ++ str_int (system_clock_freq (clock config)) ++ "
#define RTOS_HW_CPU_CLOCK_FREQ             " ++ str_int (cpu_clock_freq (clock config)) ++ "
#define RTOS_HW_APB1_CLOCK_FREQ            " ++ str_int (apb1_clock_freq (clock config)) ++ "
#define RTOS_HW_APB2_CLOCK_FREQ            " ++ str_int (apb2_clock_freq (clock config)) ++ "
#define RTOS_HW_TIMER_CLOCK_FREQ           " ++ str_int (timer_clock_freq (clock config)) ++ "
#define RTOS_HW_TIMER_RESOLUTION_NS        " ++ str_int (timer_resolution_ns (clock config)) ++ "

/* 内存配置 */
#define RTOS_HW_FLASH_SIZE                 " ++ str_int (flash_size_kb (memory config)) ++ "
#define RTOS_HW_SRAM_SIZE                  " ++ str_int (ram_size_kb (memory config)) ++ "
#define RTOS_HW_CCM_SIZE                   " ++ str_int (ccm_size_kb (memory config)) ++ "
#define RTOS_HW_HEAP_SIZE                  " ++ str_int (heap_size_kb (memory config)) ++ "
#define RTOS_HW_STACK_SIZE                 " ++ str_int (stack_size_kb (memory config)) ++ "

/* 外设配置 */
#define RTOS_HW_GPIO_PORT_COUNT            " ++ str_int (gpio_port_count (peripheral config)) ++ "
#define RTOS_HW_UART_COUNT                 " ++ str_int (uart_count (peripheral config)) ++ "
#define RTOS_HW_SPI_COUNT                  " ++ str_int (spi_count (peripheral config)) ++ "
#define RTOS_HW_I2C_COUNT                  " ++ str_int (i2c_count (peripheral config)) ++ "
#define RTOS_HW_ADC_COUNT                  " ++ str_int (adc_count (peripheral config)) ++ "
#define RTOS_HW_DAC_COUNT                  " ++ str_int (dac_count (peripheral config)) ++ "
#define RTOS_HW_TIMER_COUNT                " ++ str_int (timer_count (peripheral config)) ++ "
#define RTOS_HW_DMA_CONTROLLER_COUNT       " ++ str_int (dma_controller_count (peripheral config)) ++ "
#define RTOS_HW_DMA_STREAM_COUNT           " ++ str_int (dma_stream_count (peripheral config)) ++ "

/* 硬件特性配置 */
#define RTOS_HW_SUPPORT_FPU                " ++ str_int (if has_fpu (feature config) then 1 else 0)%Z ++ "
#define RTOS_HW_SUPPORT_DSP                " ++ str_int (if has_dsp (feature config) then 1 else 0)%Z ++ "
#define RTOS_HW_SUPPORT_MPU                " ++ str_int (if has_mpu (feature config) then 1 else 0)%Z ++ "
#define RTOS_HW_SUPPORT_CACHE              " ++ str_int (if has_cache (feature config) then 1 else 0)%Z ++ "
#define RTOS_HW_SUPPORT_DMA                " ++ str_int (if has_dma (feature config) then 1 else 0)%Z ++ "
#define RTOS_HW_SUPPORT_CRYPTO             " ++ str_int (if has_crypto (feature config) then 1 else 0)%Z ++ "
#define RTOS_HW_SUPPORT_ETHERNET           " ++ str_int (if has_ethernet (feature config) then 1 else 0)%Z ++ "
#define RTOS_HW_SUPPORT_USB                " ++ str_int (if has_usb (feature config) then 1 else 0)%Z ++ "

/* 模块使能配置 */
#define RTOS_HW_ENABLE_POWER_MGMT          " ++ str_int (if power_management_enabled (module config) then 1 else 0)%Z ++ "
#define RTOS_HW_ENABLE_MEMORY_MONITOR      " ++ str_int (if memory_monitor_enabled (module config) then 1 else 0)%Z ++ "
#define RTOS_HW_ENABLE_WATCHDOG            " ++ str_int (if watchdog_enabled (module config) then 1 else 0)%Z ++ "
#define RTOS_HW_ENABLE_GPIO                " ++ str_int (if gpio_abstraction_enabled (module config) then 1 else 0)%Z ++ "
#define RTOS_HW_ENABLE_UART                " ++ str_int (if uart_abstraction_enabled (module config) then 1 else 0)%Z ++ "
#define RTOS_HW_ENABLE_SPI                 " ++ str_int (if spi_abstraction_enabled (module config) then 1 else 0)%Z ++ "
#define RTOS_HW_ENABLE_I2C                 " ++ str_int (if i2c_abstraction_enabled (module config) then 1 else 0)%Z ++ "
#define RTOS_HW_ENABLE_ADC                 " ++ str_int (if adc_abstraction_enabled (module config) then 1 else 0)%Z ++ "
#define RTOS_HW_ENABLE_DAC                 " ++ str_int (if dac_abstraction_enabled (module config) then 1 else 0)%Z ++ "
#define RTOS_HW_ENABLE_DMA                 " ++ str_int (if dma_abstraction_enabled (module config) then 1 else 0)%Z ++ "
#define RTOS_HW_ENABLE_SECURITY            " ++ str_int (if security_enabled (module config) then 1 else 0)%Z ++ "
#define RTOS_HW_ENABLE_NETWORK             " ++ str_int (if network_enabled (module config) then 1 else 0)%Z ++ "
#define RTOS_HW_ENABLE_OTA                 " ++ str_int (if ota_enabled (module config) then 1 else 0)%Z ++ "
#define RTOS_HW_ENABLE_DEBUG_TOOLS         " ++ str_int (if debug_tools_enabled (module config) then 1 else 0)%Z ++ "

/* 调试配置 */
#define RTOS_HW_DEBUG                      " ++ str_int (if debug_enabled (debug config) then 1 else 0)%Z ++ "
#define RTOS_HW_ERROR_CHECK                " ++ str_int (if error_check_enabled (debug config) then 1 else 0)%Z ++ "
#define RTOS_PERFORMANCE_PROFILING_ENABLED " ++ str_int (if performance_profiling_enabled (debug config) then 1 else 0)%Z ++ "
#define RTOS_SYSTEM_TRACING_ENABLED        " ++ str_int (if system_tracing_enabled (debug config) then 1 else 0)%Z ++ "
#define RTOS_MEMORY_LEAK_DETECTION         " ++ str_int (if memory_leak_detection_enabled (debug config) then 1 else 0)%Z ++ "

/* 模块特定调试配置 */
#define RTOS_POWER_DEBUG                   RTOS_HW_DEBUG
#define RTOS_POWER_ERROR_CHECK             RTOS_HW_ERROR_CHECK
#define RTOS_MEMORY_DEBUG                  RTOS_HW_DEBUG
#define RTOS_MEMORY_ERROR_CHECK            RTOS_HW_ERROR_CHECK
#define RTOS_WATCHDOG_DEBUG                RTOS_HW_DEBUG
#define RTOS_WATCHDOG_ERROR_CHECK          RTOS_HW_ERROR_CHECK
#define RTOS_GPIO_DEBUG                    RTOS_HW_DEBUG
#define RTOS_GPIO_ERROR_CHECK              RTOS_HW_ERROR_CHECK
#define RTOS_UART_DEBUG                    RTOS_HW_DEBUG
#define RTOS_UART_ERROR_CHECK              RTOS_HW_ERROR_CHECK
#define RTOS_SPI_DEBUG                     RTOS_HW_DEBUG
#define RTOS_SPI_ERROR_CHECK               RTOS_HW_ERROR_CHECK
#define RTOS_I2C_DEBUG                     RTOS_HW_DEBUG
#define RTOS_I2C_ERROR_CHECK               RTOS_HW_ERROR_CHECK
#define RTOS_ADC_DEBUG                     RTOS_HW_DEBUG
#define RTOS_ADC_ERROR_CHECK               RTOS_HW_ERROR_CHECK
#define RTOS_DAC_DEBUG                     RTOS_HW_DEBUG
#define RTOS_DAC_ERROR_CHECK               RTOS_HW_ERROR_CHECK
#define RTOS_DMA_DEBUG                     RTOS_HW_DEBUG
#define RTOS_DMA_ERROR_CHECK               RTOS_HW_ERROR_CHECK

/* 平台特定宏定义 */
".

(** The literal identity macros of the platform family (lines 417-434). *)
Definition platform_macros (platform : PlatformType) : string :=
  if decide (platform = STM32F4) then
    "
#define STM32F40_41xxx                     1
#define USE_STDPERIPH_DRIVER               1
#define HSE_VALUE                          25000000
"
  else if decide (platform = STM32F1) then
    "
#define STM32F10X_HD                       1
#define USE_STDPERIPH_DRIVER               1
#define HSE_VALUE                          8000000
"
  else if decide (platform = STM32F7) then
    "
#define STM32F767xx                        1
#define USE_HAL_DRIVER                     1
#define HSE_VALUE                          25000000
"
  else EmptyString.

Definition header_footer : string :=
  "
#endif /* __RTOS_HW_CONFIG_GENERATED_H__ */
".

Definition header_text (platform : PlatformType) (config : PlatformConfig) : string :=
  header_body platform config ++ platform_macros platform ++ header_footer.

(** ** The Makefile text (lines 459-580) *)

Definition makefile_head (platform : PlatformType) (config : PlatformConfig) : string :=
  "# RTOS硬件抽象层Makefile - 自动生成 (" ++ platform_name config ++ ")
# Generated by Config Generator Tool

# 平台配置
PLATFORM = " ++ value platform ++ "
PLATFORM_NAME = " ++ platform_name config ++ "

# 编译器配置
".

Definition arm_platforms : list PlatformType := [STM32F1; STM32F4; STM32F7].

Definition makefile_arm_toolchain : string :=
  "CC = arm-none-eabi-gcc
OBJCOPY = arm-none-eabi-objcopy
SIZE = arm-none-eabi-size

# CPU配置
CPU = -mcpu=cortex-m4 -mthumb -mfpu=fpv4-sp-d16 -mfloat-abi=hard
".

Definition makefile_riscv_toolchain : string :=
  "CC = riscv64-unknown-elf-gcc
OBJCOPY = riscv64-unknown-elf-objcopy
SIZE = riscv64-unknown-elf-size

# CPU配置
CPU = -march=rv32imac -mabi=ilp32
".

(** The compiler block (lines 469-484): no text at all for an identifier
    that is neither in the ARM list nor [RISC_V]. *)
Definition makefile_toolchain (platform : PlatformType) : string :=
  if bool_decide (platform ∈ arm_platforms) then makefile_arm_toolchain
  else if decide (platform = RISC_V) then makefile_riscv_toolchain
  else EmptyString.

Definition makefile_flags : string :=
  "
# 编译标志
CFLAGS = $(CPU) -Os -g3 -Wall -Wextra -Wno-unused-parameter
CFLAGS += -DSTM32F40_41xxx -DUSE_STDPERIPH_DRIVER -DHSE_VALUE=25000000

# 包含路径
INCLUDES = -I. -Irtos -Irtos/core -Irtos/hw -Irtos/hw/security -Irtos/hw/network -Irtos/hw/ota -Irtos/hw/debug
INCLUDES += -Ifwlib/inc -Ifwlib/CMSIS/STM32F4xx/Include -Ifwlib/CMSIS/Include

# 源文件
SOURCES = main_hw_enhanced.c system_support.c
SOURCES += rtos/system.c
SOURCES += rtos/hw/hw_abstraction.c rtos/hw/interrupt_handler.c

# 新增模块源文件
".

(** The conditional source lines (lines 503-526). *)
Definition makefile_module_sources (m : ModuleConfig) : string :=
  (if power_management_enabled m then "SOURCES += rtos/hw/power_management.c
" else EmptyString) ++
  (if memory_monitor_enabled m then "SOURCES += rtos/hw/memory_monitor.c
" else EmptyString) ++
  (if watchdog_enabled m then "SOURCES += rtos/hw/watchdog_manager.c
" else EmptyString) ++
  (if gpio_abstraction_enabled m then "SOURCES += rtos/hw/gpio_abstraction.c
" else EmptyString) ++
  (if uart_abstraction_enabled m then "SOURCES += rtos/hw/uart_abstraction.c
" else EmptyString) ++
  (if spi_abstraction_enabled m then "SOURCES += rtos/hw/spi_abstraction.c
" else EmptyString) ++
  (if i2c_abstraction_enabled m then "SOURCES += rtos/hw/i2c_abstraction.c
" else EmptyString) ++
  (if dma_abstraction_enabled m then "SOURCES += rtos/hw/dma_abstraction.c
" else EmptyString).

Definition makefile_tail : string :=
  "
# 固件库源文件
FWLIB_SOURCES = fwlib/src/stm32f4xx_rcc.c fwlib/src/stm32f4xx_tim.c
FWLIB_SOURCES += fwlib/src/stm32f4xx_gpio.c fwlib/src/stm32f4xx_usart.c
FWLIB_SOURCES += fwlib/src/stm32f4xx_pwr.c fwlib/src/stm32f4xx_adc.c
FWLIB_SOURCES += fwlib/src/stm32f4xx_iwdg.c fwlib/src/stm32f4xx_wwdg.c
FWLIB_SOURCES += fwlib/src/stm32f4xx_dma.c fwlib/src/stm32f4xx_spi.c
FWLIB_SOURCES += fwlib/src/stm32f4xx_i2c.c fwlib/src/stm32f4xx_dac.c
FWLIB_SOURCES += fwlib/src/misc.c

# 目标文件
OBJECTS = $(SOURCES:.c=.o) $(FWLIB_SOURCES:.c=.o) startup_stm32f407xx.o

# 链接脚本
LDSCRIPT = STM32F407VGTx_FLASH.ld

# 链接标志
LDFLAGS = $(CPU) -specs=nano.specs -specs=nosys.specs
LDFLAGS += -T$(LDSCRIPT) -Wl,--gc-sections -Wl,--print-memory-usage

# 目标
TARGET = rtos_hw_enhanced

.PHONY: all clean

all: $(TARGET).elf $(TARGET).bin $(TARGET).hex

$(TARGET).elf: $(OBJECTS)
" ++ tab ++ "$(CC) $(LDFLAGS) $^ -o $@ -lm
" ++ tab ++ "$(SIZE) $@

$(TARGET).bin: $(TARGET).elf
" ++ tab ++ "$(OBJCOPY) -O binary $< $@

$(TARGET).hex: $(TARGET).elf
" ++ tab ++ "$(OBJCOPY) -O ihex $< $@

%.o: %.c
" ++ tab ++ "$(CC) $(CFLAGS) $(INCLUDES) -c $< -o $@

%.o: %.s
" ++ tab ++ "$(CC) $(CFLAGS) -c $< -o $@

clean:
" ++ tab ++ "@echo " ++ dq ++ "清理编译文件..." ++ dq ++ "
" ++ tab ++ "rm -f $(OBJECTS) $(TARGET).elf $(TARGET).bin $(TARGET).hex $(TARGET).map

info:
" ++ tab ++ "@echo " ++ dq ++ "平台: $(PLATFORM_NAME)" ++ dq ++ "
" ++ tab ++ "@echo " ++ dq ++ "编译器: $(CC)" ++ dq ++ "
" ++ tab ++ "@echo " ++ dq ++ "源文件数: $(words $(SOURCES))" ++ dq ++ "
" ++ tab ++ "@echo " ++ dq ++ "固件库文件数: $(words $(FWLIB_SOURCES))" ++ dq ++ "
".

Definition makefile_text (platform : PlatformType) (config : PlatformConfig) : string :=
  makefile_head platform config ++ makefile_toolchain platform ++ makefile_flags ++
  makefile_module_sources (module config) ++ makefile_tail.

(** ** The CMakeLists.txt text (lines 601-718) *)

Definition cmake_head (platform : PlatformType) (config : PlatformConfig) : string :=
  "# RTOS硬件抽象层CMake配置 - 自动生成 (" ++ platform_name config ++ ")
# Generated by Config Generator Tool

cmake_minimum_required(VERSION 3.16)

# 项目配置
project(rtos_hw_enhanced
    VERSION 1.0.0
    DESCRIPTION " ++ dq ++ "RTOS Hardware Abstraction Layer Enhanced" ++ dq ++ "
    LANGUAGES C ASM
)

# 平台配置
set(PLATFORM_TYPE " ++ value platform ++ ")
set(PLATFORM_NAME " ++ platform_name config ++ ")

# 编译器配置
".

Definition cmake_arm_toolchain : string :=
  "set(CMAKE_SYSTEM_NAME Generic)
set(CMAKE_SYSTEM_PROCESSOR arm)

set(CMAKE_C_COMPILER arm-none-eabi-gcc)
set(CMAKE_ASM_COMPILER arm-none-eabi-gcc)
set(CMAKE_OBJCOPY arm-none-eabi-objcopy)
set(CMAKE_SIZE arm-none-eabi-size)

# CPU配置
set(CPU_FLAGS " ++ dq ++ "-mcpu=cortex-m4 -mthumb -mfpu=fpv4-sp-d16 -mfloat-abi=hard" ++ dq ++ ")
".

(** The compiler block (lines 620-631): only the ARM list has one. *)
Definition cmake_toolchain (platform : PlatformType) : string :=
  if bool_decide (platform ∈ arm_platforms) then cmake_arm_toolchain
  else EmptyString.

Definition cmake_flags : string :=
  "
# 编译标志
set(CMAKE_C_FLAGS " ++ dq ++ "${CPU_FLAGS} -Os -g3 -Wall -Wextra -Wno-unused-parameter" ++ dq ++ ")
set(CMAKE_C_FLAGS " ++ dq ++ "${CMAKE_C_FLAGS} -DSTM32F40_41xxx -DUSE_STDPERIPH_DRIVER -DHSE_VALUE=25000000" ++ dq ++ ")

# 包含目录
include_directories(
    .
    rtos
    rtos/core
    rtos/hw
    rtos/hw/security
    rtos/hw/network
    rtos/hw/ota
    rtos/hw/debug
    fwlib/inc
    fwlib/CMSIS/STM32F4xx/Include
    fwlib/CMSIS/Include
)

# 源文件
set(SOURCES
    main_hw_enhanced.c
    system_support.c
    rtos/system.c
    rtos/hw/hw_abstraction.c
    rtos/hw/interrupt_handler.c
".

(** The conditional source lines (lines 662-679). *)
Definition cmake_module_sources (m : ModuleConfig) : string :=
  (if power_management_enabled m then "    rtos/hw/power_management.c
" else EmptyString) ++
  (if memory_monitor_enabled m then "    rtos/hw/memory_monitor.c
" else EmptyString) ++
  (if watchdog_enabled m then "    rtos/hw/watchdog_manager.c
" else EmptyString) ++
  (if gpio_abstraction_enabled m then "    rtos/hw/gpio_abstraction.c
" else EmptyString) ++
  (if uart_abstraction_enabled m then "    rtos/hw/uart_abstraction.c
" else EmptyString) ++
  (if dma_abstraction_enabled m then "    rtos/hw/dma_abstraction.c
" else EmptyString).

Definition cmake_tail : string :=
  ")

# 固件库源文件
set(FWLIB_SOURCES
    fwlib/src/stm32f4xx_rcc.c
    fwlib/src/stm32f4xx_tim.c
    fwlib/src/stm32f4xx_gpio.c
    fwlib/src/stm32f4xx_usart.c
    fwlib/src/stm32f4xx_pwr.c
    fwlib/src/stm32f4xx_adc.c
    fwlib/src/stm32f4xx_iwdg.c
    fwlib/src/stm32f4xx_wwdg.c
    fwlib/src/stm32f4xx_dma.c
    fwlib/src/misc.c
)

# 创建可执行文件
add_executable(${PROJECT_NAME}.elf
    ${SOURCES}
    ${FWLIB_SOURCES}
    startup_stm32f407xx.s
)

# 链接配置
set_target_properties(${PROJECT_NAME}.elf PROPERTIES
    LINK_FLAGS " ++ dq ++ "${CPU_FLAGS} -specs=nano.specs -specs=nosys.specs -T${CMAKE_SOURCE_DIR}/STM32F407VGTx_FLASH.ld -Wl,--gc-sections -Wl,--print-memory-usage" ++ dq ++ "
)

target_link_libraries(${PROJECT_NAME}.elf m)

# 生成二进制文件
add_custom_command(TARGET ${PROJECT_NAME}.elf POST_BUILD
    COMMAND ${CMAKE_OBJCOPY} -O binary $<TARGET_FILE:${PROJECT_NAME}.elf> ${PROJECT_NAME}.bin
    COMMAND ${CMAKE_OBJCOPY} -O ihex $<TARGET_FILE:${PROJECT_NAME}.elf> ${PROJECT_NAME}.hex
    COMMAND ${CMAKE_SIZE} $<TARGET_FILE:${PROJECT_NAME}.elf>
    COMMENT " ++ dq ++ "生成二进制文件和显示大小信息" ++ dq ++ "
)
".

Definition cmake_text (platform : PlatformType) (config : PlatformConfig) : string :=
  cmake_head platform config ++ cmake_toolchain platform ++ cmake_flags ++
  cmake_module_sources (module config) ++ cmake_tail.

(** [str(platform)], as the f-strings of the error messages print it. *)
Definition str_platform (p : PlatformType) : string :=
  "PlatformType." ++ member_name p.

Definition no_attribute (o : pyval) (attr : string) : exn :=
  AttributeError ("'" ++ type_name o ++ "' object has no attribute '" ++ attr ++ "'").

(** The text each renderer builds before it touches the file system.  A
    preset has typed sections; a loaded object holds [json.load]'s values in
    its fields, and the first attribute read on such a value raises
    [AttributeError] (the formatting of [config.platform_name] before it
    cannot raise). *)
Definition header_content (platform : PlatformType) (config : config_obj) : exn + string :=
  match config with
  | Built c => inr (header_text platform c)
  | Loaded r => inl (no_attribute (raw_clock r) "system_clock_freq")
  end.

Definition makefile_content (platform : PlatformType) (config : config_obj) : exn + string :=
  match config with
  | Built c => inr (makefile_text platform c)
  | Loaded r => inl (no_attribute (raw_module r) "power_management_enabled")
  end.

Definition cmake_content (platform : PlatformType) (config : config_obj) : exn + string :=
  match config with
  | Built c => inr (cmake_text platform c)
  | Loaded r => inl (no_attribute (raw_module r) "power_management_enabled")
  end.

(** ** The generator over a platform

    [FS] is the state of the file system.  Every operation of the platform
    returns the state it leaves behind, together with the exception it raised
    if it raised one. *)

Record World (FS : Type) := mkWorld { fs : FS; console : list string }.
Arguments mkWorld {FS} _ _.
Arguments fs {FS} _.
Arguments console {FS} _.

Section Generator.
Context {FS : Type}.

(** [os.path.dirname], [os.path.join] *)
Variable os_path_dirname : string → string.
Variable os_path_join : string → string → string.
(** [os.makedirs(d, exist_ok=True)] *)
Variable os_makedirs : string → FS → option exn * FS.
(** [open(path, 'w', encoding='utf-8')]: creates or truncates the file *)
Variable open_w : string → FS → option exn * FS.
(** [f.write(text)] on the file opened at [path] *)
Variable f_write : string → string → FS → option exn * FS.
(** [open(path, 'r', encoding='utf-8')] and the read of the whole file *)
Variable read_text : string → FS → exn + string.
(** the parser of [json.load]; [ValueError] on malformed text *)
Variable json_loads : string → exn + pyval.

(** Computations that read and write the world and may raise. *)
Definition M (A : Type) : Type := World FS → (exn + A) * World FS.

#[local] Instance M_ret : MRet M := fun A a w => (inr a, w).

#[local] Instance M_bind : MBind M := fun A B k m w =>
  match m w with
  | (inl e, w') => (inl e, w')
  | (inr a, w') => k a w'
  end.

Definition raise {A : Type} (e : exn) : M A := fun w => (inl e, w).

Definition lift {A : Type} (r : exn + A) : M A := fun w => (r, w).

(** [try: body except Exception as e: handler] *)
Definition try_except {A : Type} (body : M A) (handler : exn → M A) : M A :=
  fun w =>
    match body w with
    | (inl e, w') => handler e w'
    | (inr a, w') => (inr a, w')
    end.

Definition print (msg : string) : M unit := fun w =>
  (inr tt, mkWorld (fs w) (console w ++ [msg])%list).

Definition fs_op (op : FS → option exn * FS) : M unit := fun w =>
  let '(r, fs') := op (fs w) in
  (match r with Some e => inl e | None => inr tt end, mkWorld fs' (console w)).

Definition fs_read (op : FS → exn + string) : M string := fun w => (op (fs w), w).

(** [with open(output_file, 'w', encoding='utf-8') as f: f.write(content)],
    after [os.makedirs(os.path.dirname(output_file), exist_ok=True)]. *)
Definition write_artifact (output_file content : string) : M unit :=
  fs_op (os_makedirs (os_path_dirname output_file));;
  fs_op (open_w output_file);;
  fs_op (f_write output_file content).

(** [json.dump(obj, f, indent=2, ensure_ascii=False)] on the file opened at
    [path]: the pieces go through the buffered file object; the model hands
    their concatenation to one write, then raises what stopped the encoder. *)
Definition json_dump (obj : pyval) (path : string) : M unit :=
  let '(text, r) := json_encode 0 obj in
  fs_op (f_write path text);;
  match r with
  | Some e => raise e
  | None => mret tt
  end.

Definition generate_config_header (self : gmap PlatformType config_obj)
    (platform : PlatformType) (output_file : string) : M bool :=
  match self !! platform with
  | None =>
      print ("错误: 不支持的平台 " ++ str_platform platform);;
      mret false
  | Some config =>
      header_content ← lift (header_content platform config);
      try_except
        (write_artifact output_file header_content;;
         print ("配置头文件生成成功: " ++ output_file);;
         mret true)
        (fun e =>
           print ("生成配置头文件失败: " ++ exn_str e);;
           mret false)
  end.

Definition generate_makefile (self : gmap PlatformType config_obj)
    (platform : PlatformType) (output_file : string) : M bool :=
  match self !! platform with
  | None =>
      print ("错误: 不支持的平台 " ++ str_platform platform);;
      mret false
  | Some config =>
      makefile_content ← lift (makefile_content platform config);
      try_except
        (write_artifact output_file makefile_content;;
         print ("Makefile生成成功: " ++ output_file);;
         mret true)
        (fun e =>
           print ("生成Makefile失败: " ++ exn_str e);;
           mret false)
  end.

Definition generate_cmake_file (self : gmap PlatformType config_obj)
    (platform : PlatformType) (output_file : string) : M bool :=
  match self !! platform with
  | None =>
      print ("错误: 不支持的平台 " ++ str_platform platform);;
      mret false
  | Some config =>
      cmake_content ← lift (cmake_content platform config);
      try_except
        (write_artifact output_file cmake_content;;
         print ("CMakeLists.txt生成成功: " ++ output_file);;
         mret true)
        (fun e =>
           print ("生成CMakeLists.txt失败: " ++ exn_str e);;
           mret false)
  end.

Definition save_config_json (self : gmap PlatformType config_obj)
    (platform : PlatformType) (output_file : string) : M bool :=
  match self !! platform with
  | None => mret false
  | Some config =>
      try_except
        (fs_op (os_makedirs (os_path_dirname output_file));;
         fs_op (open_w output_file);;
         json_dump (asdict config) output_file;;
         print ("配置JSON文件保存成功: " ++ output_file);;
         mret true)
        (fun e =>
           print ("保存配置JSON文件失败: " ++ exn_str e);;
           mret false)
  end.

Definition load_config_json (input_file : string) : M (option config_obj) :=
  try_except
    (text ← fs_read (read_text input_file);
     config_dict ← lift (json_loads text);
     config ← lift (PlatformConfig_new config_dict);
     print ("配置JSON文件加载成功: " ++ input_file);;
     mret (Some config))
    (fun e =>
       print ("加载配置JSON文件失败: " ++ exn_str e);;
       mret None).

(** The four artifacts of one platform, as [main] requests them twice
    (lines 798-814 and 824-848). *)
Definition generate_artifacts (generator : gmap PlatformType config_obj)
    (platform : PlatformType) (platform_dir : string) : M unit :=
  generate_config_header generator platform
    (os_path_join platform_dir "hw_config_generated.h");;
  generate_makefile generator platform (os_path_join platform_dir "Makefile");;
  generate_cmake_file generator platform (os_path_join platform_dir "CMakeLists.txt");;
  save_config_json generator platform (os_path_join platform_dir "platform_config.json");;
  mret tt.

(** [main] with [--generate-all] (lines 795-817). *)
Fixpoint generate_all_loop (generator : gmap PlatformType config_obj)
    (output_dir : string) (todo : list PlatformType) : M unit :=
  match todo with
  | [] => mret tt
  | platform :: todo' =>
      generate_artifacts generator platform (os_path_join output_dir (value platform));;
      generate_all_loop generator output_dir todo'
  end.

Definition main_generate_all (output_dir : string) : M unit :=
  print "生成所有平台配置...";;
  generate_all_loop platforms_init output_dir all_platform_types;;
  print "所有平台配置生成完成！".

(** The override of [main] (lines 826-830): a non-empty [--config-file]
    is loaded, and an object that was loaded replaces the entry of the
    requested platform. *)
Definition main_override (generator : gmap PlatformType config_obj)
    (platform : PlatformType) (config_file : option string)
    : M (gmap PlatformType config_obj) :=
  match config_file with
  | Some file =>
      if String.eqb file EmptyString then mret generator
      else
        custom_config ← load_config_json file;
        match custom_config with
        | Some c => mret (<[platform := c]> generator)
        | None => mret generator
        end
  | None => mret generator
  end.

(** [main] for one [--platform] (lines 823-851). *)
Definition main_platform (platform : PlatformType) (output_dir : string)
    (config_file : option string) : M unit :=
  let platform_dir := os_path_join output_dir (value platform) in
  generator ← main_override platforms_init platform config_file;
  print ("为平台 " ++ value platform ++ " 生成配置...");;
  generate_artifacts generator platform platform_dir;;
  print ("平台 " ++ value platform ++ " 配置生成完成！");;
  print ("输出目录: " ++ platform_dir).

End Generator.

(** ** One platform: POSIX paths, files in memory, integer-only JSON

    [MemIO] instantiates the parameters of [Generator] so that the
    generator can be run on concrete inputs.  Its file system is a map from
    paths to contents in which directories always exist; its parser accepts
    JSON documents without floats and without [\u] escapes and rejects the
    rest. *)
Module MemIO.

Definition fs_state : Type := gmap string string.

Definition slash : ascii := ascii_of_nat 47.

(** Position just after the last [/], as [p.rfind('/') + 1]. *)
Fixpoint after_last_slash (p : string) : nat :=
  match p with
  | EmptyString => 0
  | String c p' =>
      let i := after_last_slash p' in
      if (0 <? i)%nat then S i
      else if Ascii.eqb c slash then 1
      else 0
  end.

Fixpoint all_slashes (s : string) : bool :=
  match s with
  | EmptyString => true
  | String c s' => Ascii.eqb c slash && all_slashes s'
  end.

(** [s.rstrip('/')] *)
Fixpoint rstrip_slash (s : string) : string :=
  match s with
  | EmptyString => EmptyString
  | String c s' =>
      match rstrip_slash s' with
      | EmptyString => if Ascii.eqb c slash then EmptyString else String c EmptyString
      | t => String c t
      end
  end.

(** [posixpath.dirname] *)
Definition dirname (p : string) : string :=
  let head := String.substring 0 (after_last_slash p) p in
  if all_slashes head then head else rstrip_slash head.

Fixpoint ends_with_slash (s : string) : bool :=
  match s with
  | EmptyString => false
  | String c EmptyString => Ascii.eqb c slash
  | String _ s' => ends_with_slash s'
  end.

(** [posixpath.join] of two components *)
Definition join (a b : string) : string :=
  match b with
  | String c _ =>
      if Ascii.eqb c slash then b
      else if String.eqb a EmptyString || ends_with_slash a then a ++ b
      else a ++ "/" ++ b
  | EmptyString =>
      if String.eqb a EmptyString || ends_with_slash a then a else a ++ "/"
  end.

(** Directories always exist, except the one named by the empty path. *)
Definition makedirs (d : string) (s : fs_state) : option exn * fs_state :=
  if String.eqb d EmptyString
  then (Some (OSError "[Errno 2] No such file or directory: ''"), s)
  else (None, s).

Definition open_w (path : string) (s : fs_state) : option exn * fs_state :=
  (None, <[path := EmptyString]> s).

Definition f_write (path text : string) (s : fs_state) : option exn * fs_state :=
  (None, <[path := default EmptyString (s !! path) ++ text]> s).

Definition read_text (path : string) (s : fs_state) : exn + string :=
  match s !! path with
  | Some text => inr text
  | None => inl (OSError ("[Errno 2] No such file or directory: '" ++ path ++ "'"))
  end.

(** *** The parser *)

Definition is_ws (c : ascii) : bool :=
  let n := nat_of_ascii c in
  (n =? 32)%nat || (n =? 9)%nat || (n =? 10)%nat || (n =? 13)%nat.

Fixpoint skip_ws (s : string) : string :=
  match s with
  | String c s' => if is_ws c then skip_ws s' else s
  | EmptyString => s
  end.

Definition is_digit (c : ascii) : bool :=
  let n := nat_of_ascii c in (48 <=? n)%nat && (n <=? 57)%nat.

Fixpoint parse_digits (acc : Z) (s : string) : Z * string :=
  match s with
  | String c s' =>
      if is_digit c
      then parse_digits (10 * acc + Z.of_nat (nat_of_ascii c - 48)) s'
      else (acc, s)
  | EmptyString => (acc, s)
  end.

Definition starts_float_tail (s : string) : bool :=
  match s with
  | String c _ =>
      let n := nat_of_ascii c in
      (n =? 46)%nat || (n =? 101)%nat || (n =? 69)%nat
  | EmptyString => false
  end.

Definition parse_int (s : string) : option (Z * string) :=
  let '(neg, s1) :=
    match s with
    | String c s' => if (nat_of_ascii c =? 45)%nat then (true, s') else (false, s)
    | EmptyString => (false, s)
    end in
  match s1 with
  | String c s2 =>
      if is_digit c then
        let '(n, rest) :=
          if (nat_of_ascii c =? 48)%nat then (0%Z, s2) else parse_digits 0 s1 in
        if starts_float_tail rest then None
        else Some (if neg : bool then (- n)%Z else n, rest)
      else None
  | EmptyString => None
  end.

Definition unescape (c : ascii) : option ascii :=
  let n := nat_of_ascii c in
  if (n =? 34)%nat || (n =? 92)%nat || (n =? 47)%nat then Some c
  else if (n =? 98)%nat then Some (ascii_of_nat 8)
  else if (n =? 102)%nat then Some (ascii_of_nat 12)
  else if (n =? 110)%nat then Some (ascii_of_nat 10)
  else if (n =? 114)%nat then Some (ascii_of_nat 13)
  else if (n =? 116)%nat then Some (ascii_of_nat 9)
  else None.

(** The characters of a string literal after its opening quote. *)
Fixpoint parse_string (acc : string) (s : string) : option (string * string) :=
  match s with
  | EmptyString => None
  | String c s' =>
      let n := nat_of_ascii c in
      if (n =? 34)%nat then Some (String.rev acc, s')
      else if (n =? 92)%nat then
        match s' with
        | String e s'' =>
            match unescape e with
            | Some ch => parse_string (String ch acc) s''
            | None => None
            end
        | EmptyString => None
        end
      else if (n <? 32)%nat then None
      else parse_string (String c acc) s'
  end.

(** [d[k] = v] on an insertion-ordered dict. *)
Fixpoint dict_set (k : string) (v : pyval) (d : list (string * pyval))
    : list (string * pyval) :=
  match d with
  | [] => [(k, v)]
  | (k', v') :: d' =>
      if String.eqb k k' then (k, v) :: d' else (k', v') :: dict_set k v d'
  end.

Definition drop_chars (n : nat) (s : string) : string :=
  String.substring n (String.length s - n) s.

Definition head_is (code : nat) (s : string) : option string :=
  match s with
  | String c s' => if (nat_of_ascii c =? code)%nat then Some s' else None
  | EmptyString => None
  end.

Fixpoint parse_value (fuel : nat) (s : string) {struct fuel} : option (pyval * string) :=
  match fuel with
  | O => None
  | S fuel' =>
      let s := skip_ws s in
      match head_is 123 s, head_is 91 s, head_is 34 s with
      | Some rest, _, _ =>
          match head_is 125 (skip_ws rest) with
          | Some rest' => Some (PDict [], rest')
          | None => parse_members fuel' [] rest
          end
      | _, Some rest, _ =>
          match head_is 93 (skip_ws rest) with
          | Some rest' => Some (PList [], rest')
          | None => parse_elements fuel' [] rest
          end
      | _, _, Some rest =>
          match parse_string EmptyString rest with
          | Some (str, rest') => Some (PStr str, rest')
          | None => None
          end
      | None, None, None =>
          if String.prefix "true" s then Some (PBool true, drop_chars 4 s)
          else if String.prefix "false" s then Some (PBool false, drop_chars 5 s)
          else if String.prefix "null" s then Some (PNone, drop_chars 4 s)
          else
            match parse_int s with
            | Some (n, rest) => Some (PInt n, rest)
            | None => None
            end
      end
  end
with parse_members (fuel : nat) (acc : list (string * pyval)) (s : string)
    {struct fuel} : option (pyval * string) :=
  match fuel with
  | O => None
  | S fuel' =>
      match head_is 34 (skip_ws s) with
      | Some r =>
          match parse_string EmptyString r with
          | Some (k, r1) =>
              match head_is 58 (skip_ws r1) with
              | Some r2 =>
                  match parse_value fuel' r2 with
                  | Some (v, r3) =>
                      let acc' := dict_set k v acc in
                      match head_is 44 (skip_ws r3), head_is 125 (skip_ws r3) with
                      | Some r4, _ => parse_members fuel' acc' r4
                      | _, Some r4 => Some (PDict acc', r4)
                      | None, None => None
                      end
                  | None => None
                  end
              | None => None
              end
          | None => None
          end
      | None => None
      end
  end
with parse_elements (fuel : nat) (acc : list pyval) (s : string)
    {struct fuel} : option (pyval * string) :=
  match fuel with
  | O => None
  | S fuel' =>
      match parse_value fuel' s with
      | Some (v, r) =>
          let acc' := (acc ++ [v])%list in
          match head_is 44 (skip_ws r), head_is 93 (skip_ws r) with
          | Some r', _ => parse_elements fuel' acc' r'
          | _, Some r' => Some (PList acc', r')
          | None, None => None
          end
      | None => None
      end
  end.

Definition json_loads (text : string) : exn + pyval :=
  match parse_value (2 * String.length text + 2) text with
  | Some (v, rest) =>
      if String.eqb (skip_ws rest) EmptyString then inr v
      else inl (ValueError "Extra data")
  | None => inl (ValueError "Expecting value")
  end.

(** The generator on this platform. *)
Definition world : Type := World fs_state.

Definition generate_config_header :=
  generate_config_header dirname makedirs open_w f_write.
Definition generate_makefile :=
  generate_makefile dirname makedirs open_w f_write.
Definition generate_cmake_file :=
  generate_cmake_file dirname makedirs open_w f_write.
Definition save_config_json :=
  save_config_json dirname makedirs open_w f_write.
Definition load_config_json :=
  load_config_json read_text json_loads.
Definition main_override :=
  main_override read_text json_loads.
Definition main_platform :=
  main_platform dirname join makedirs open_w f_write read_text json_loads.
Definition main_generate_all :=
  main_generate_all dirname join makedirs open_w f_write.

End MemIO.

(** ** The module flags as data

    The fourteen fields of [ModuleConfig], named so that statements can
    speak of the set of flags a renderer reads. *)

Inductive module_flag :=
| power_management | memory_monitor | watchdog
| gpio_abstraction | uart_abstraction | spi_abstraction | i2c_abstraction
| adc_abstraction | dac_abstraction | dma_abstraction
| security | network | ota | debug_tools.

#[global] Instance module_flag_eq_dec : EqDecision module_flag.
Proof. solve_decision. Defined.

Definition all_module_flags : list module_flag :=
  [power_management; memory_monitor; watchdog; gpio_abstraction;
   uart_abstraction; spi_abstraction; i2c_abstraction; adc_abstraction;
   dac_abstraction; dma_abstraction; security; network; ota; debug_tools].

Definition flag_enabled (f : module_flag) (m : ModuleConfig) : bool :=
  match f with
  | power_management => power_management_enabled m
  | memory_monitor => memory_monitor_enabled m
  | watchdog => watchdog_enabled m
  | gpio_abstraction => gpio_abstraction_enabled m
  | uart_abstraction => uart_abstraction_enabled m
  | spi_abstraction => spi_abstraction_enabled m
  | i2c_abstraction => i2c_abstraction_enabled m
  | adc_abstraction => adc_abstraction_enabled m
  | dac_abstraction => dac_abstraction_enabled m
  | dma_abstraction => dma_abstraction_enabled m
  | security => security_enabled m
  | network => network_enabled m
  | ota => ota_enabled m
  | debug_tools => debug_tools_enabled m
  end.

(** The ModuleConfig whose flags are given by [on]. *)
Definition module_of (on : module_flag → bool) : ModuleConfig := {|
  power_management_enabled := on power_management;
  memory_monitor_enabled := on memory_monitor;
  watchdog_enabled := on watchdog;
  gpio_abstraction_enabled := on gpio_abstraction;
  uart_abstraction_enabled := on uart_abstraction;
  spi_abstraction_enabled := on spi_abstraction;
  i2c_abstraction_enabled := on i2c_abstraction;
  adc_abstraction_enabled := on adc_abstraction;
  dac_abstraction_enabled := on dac_abstraction;
  dma_abstraction_enabled := on dma_abstraction;
  security_enabled := on security;
  network_enabled := on network;
  ota_enabled := on ota;
  debug_tools_enabled := on debug_tools
|}.

Definition no_module : ModuleConfig := module_of (fun _ => false).
Definition only_module (f : module_flag) : ModuleConfig :=
  module_of (fun g => bool_decide (g = f)).

(** Two configurations that give the flags of [fl] the same values. *)
Definition agree_on (fl : list module_flag) (m m' : ModuleConfig) : Prop :=
  ∀ f, f ∈ fl → flag_enabled f m = flag_enabled f m'.

(** [render] reads no flag outside [fl]. *)
Definition depends_only_on (render : ModuleConfig → string) (fl : list module_flag) : Prop :=
  ∀ m m', agree_on fl m m' → render m = render m'.

(** Changing [f] alone can change what [render] emits. *)
Definition sensitive_to (render : ModuleConfig → string) (f : module_flag) : Prop :=
  ∃ m m', (∀ g, g ≠ f → flag_enabled g m = flag_enabled g m') ∧ render m ≠ render m'.

(** [render] is driven by exactly the flags of [fl]: it reads no other
    flag, and each flag of [fl] makes a difference. *)
Definition driven_by (render : ModuleConfig → string) (fl : list module_flag) : Prop :=
  NoDup fl ∧ depends_only_on render fl ∧ ∀ f, f ∈ fl → sensitive_to render f.

(** The append-line-if-true rules of the two build renderers, in the order
    the source evaluates them. *)
Definition makefile_rules : list (module_flag * string) :=
  [(power_management, "SOURCES += rtos/hw/power_management.c");
   (memory_monitor, "SOURCES += rtos/hw/memory_monitor.c");
   (watchdog, "SOURCES += rtos/hw/watchdog_manager.c");
   (gpio_abstraction, "SOURCES += rtos/hw/gpio_abstraction.c");
   (uart_abstraction, "SOURCES += rtos/hw/uart_abstraction.c");
   (spi_abstraction, "SOURCES += rtos/hw/spi_abstraction.c");
   (i2c_abstraction, "SOURCES += rtos/hw/i2c_abstraction.c");
   (dma_abstraction, "SOURCES += rtos/hw/dma_abstraction.c")].

Definition cmake_rules : list (module_flag * string) :=
  [(power_management, "    rtos/hw/power_management.c");
   (memory_monitor, "    rtos/hw/memory_monitor.c");
   (watchdog, "    rtos/hw/watchdog_manager.c");
   (gpio_abstraction, "    rtos/hw/gpio_abstraction.c");
   (uart_abstraction, "    rtos/hw/uart_abstraction.c");
   (dma_abstraction, "    rtos/hw/dma_abstraction.c")].

(** The lines of the rules whose flag is set, each ended by a newline. *)
Fixpoint apply_rules (rules : list (module_flag * string)) (m : ModuleConfig) : string :=
  match rules with
  | [] => EmptyString
  | (f, line) :: rules' =>
      (if flag_enabled f m then line ++ String nl EmptyString else EmptyString)
      ++ apply_rules rules' m
  end.

(** ** The registry invariant of the specification *)

(** What a stored object holds in its [platform_type] field. *)
Definition config_identifier (c : config_obj) : pyval :=
  match c with
  | Built b => PEnum (platform_type b)
  | Loaded r => raw_platform_type r
  end.

(** [c.platform_type == p].  [PlatformType] is a plain [Enum]: a member is
    equal to itself and to nothing else, so a str is not equal to the member
    it is the value of, and neither is any other value a document can hold. *)
Definition identifies (c : config_obj) (p : PlatformType) : bool :=
  match config_identifier c with
  | PEnum q => bool_decide (q = p)
  | _ => false
  end.

(** The values [json.load] builds: [None], [bool], [int], [float], [str],
    and lists and dicts of such values; no [PlatformType] member. *)
Fixpoint json_value (v : pyval) : bool :=
  match v with
  | PList l => forallb json_value l
  | PDict d => forallb (fun kv => json_value (snd kv)) d
  | PEnum _ => false
  | _ => true
  end.

Definition stored_under_own_key (registry : gmap PlatformType config_obj) : Prop :=
  ∀ p c, registry !! p = Some c → identifies c p = true.

(** What [load_config_json] accepts of a decoded document: a dict whose
    keys are the eight field names, each present. *)
Definition has_the_eight_fields (v : pyval) : bool :=
  match v with
  | PDict d =>
      forallb (fun kv => is_field_name (fst kv)) d
      && forallb (fun k => bool_decide (is_Some (dict_get k d))) field_names
  | _ => false
  end.

(** The value a document gives a field; [None] when the key is absent. *)
Definition document_field (k : string) (v : pyval) : option pyval :=
  match v with
  | PDict d => dict_get k d
  | _ => None
  end.

(** The fields a stored object holds, by name. *)
Definition stored_field (k : string) (c : config_obj) : option pyval :=
  dict_get k (match asdict c with PDict d => d | _ => [] end).

(** A block of lines: a text that starts and ends with a newline.  [inner]
    is the text between the two. *)
Definition inner (s : string) : string :=
  String.substring 1 (String.length s - 2) s.

Definition is_block (s : string) : bool :=
  String.eqb s (String nl (inner s ++ String nl EmptyString)).

(** The result of a load is one of the typed objects. *)
Definition returns_Built (r : exn + option config_obj) : bool :=
  match r with
  | inr o => is_Built o
  | inl _ => false
  end.

(** A string in JSON quotes, for documents written out in examples. *)
Definition q (s : string) : string := dq ++ s ++ dq.

(** What the three text renderers do on an identifier without an entry:
    they print the message, write nothing and return [False]. *)
Definition not_found {FS : Type} (platform : PlatformType) (w : World FS)
    : (exn + bool) * World FS :=
  (inr false,
   mkWorld (fs w)
     (console w ++ [("错误: 不支持的平台 " ++ str_platform platform)%string])%list).

(** Unfolds the monad of the generator. *)
Ltac run :=
  unfold try_except, json_dump, write_artifact, fs_op, fs_read, print, lift, raise,
    mbind, M_bind, mret, M_ret in *; simpl in *.

(** ** Documents and worlds for the runs on [MemIO] *)

(** The dict [asdict] builds for a typed configuration, with the member in
    [platform_type] replaced by its string value: the document a decoder
    would expect for it. *)
Definition preset_document (c : PlatformConfig) : list (string * pyval) :=
  match asdict (Built c) with
  | PDict d => MemIO.dict_set "platform_type" (PStr (value (platform_type c))) d
  | _ => []
  end.

(** [del d[k]] *)
Fixpoint dict_del (k : string) (d : list (string * pyval)) : list (string * pyval) :=
  match d with
  | [] => []
  | (k', v) :: d' => if String.eqb k k' then d' else (k', v) :: dict_del k d'
  end.

(** The text [json.dump] writes for a dict of JSON values. *)
Definition document_text (d : list (string * pyval)) : string :=
  fst (json_encode 0 (PDict d)).

(** The stm32f1 preset as a document, and the same without its memory
    section. *)
Definition stm32f1_document : string :=
  document_text (preset_document stm32f1_config).

Definition no_memory_document : string :=
  document_text (dict_del "memory" (preset_document stm32f1_config)).


(** A document with the eight keys and values of other types than the
    fields': a number for the identifier, a string for the clock section, an
    empty memory section. *)
Definition mismatched_document : string :=
  "{" ++ q "platform_type" ++ ": 7, " ++ q "platform_name" ++ ": null, "
  ++ q "clock" ++ ": " ++ q "fast" ++ ", " ++ q "memory" ++ ": {}, "
  ++ q "peripheral" ++ ": [], " ++ q "feature" ++ ": true, "
  ++ q "module" ++ ": {" ++ q "power_management_enabled" ++ ": 1}, "
  ++ q "debug" ++ ": 0}".

(** The dict that document stands for. *)
Definition mismatched_dict : list (string * pyval) :=
  [("platform_type", PInt 7); ("platform_name", PNone); ("clock", PStr "fast");
   ("memory", PDict []); ("peripheral", PList []); ("feature", PBool true);
   ("module", PDict [("power_management_enabled", PInt 1)]); ("debug", PInt 0)].

(** A world whose only file is [custom.json]. *)
Definition world_with (document : string) : MemIO.world :=
  mkWorld {["custom.json" := document]} [].

Definition empty_world : MemIO.world := mkWorld ∅ [].

(** Unfold one function of the generator. *)
Ltac unfold_generate_config_header := unfold generate_config_header.
Ltac unfold_generate_makefile := unfold generate_makefile.
Ltac unfold_generate_cmake_file := unfold generate_cmake_file.
Ltac unfold_save_config_json := unfold save_config_json.
Ltac unfold_load_config_json := unfold load_config_json.
Ltac unfold_main_override := unfold main_override.

(** The object the constructor builds from a dict that has the eight
    keys. *)
Definition raw_of_dict (d : list (string * pyval)) : RawConfig := {|
  raw_platform_type := default PNone (dict_get "platform_type" d);
  raw_platform_name := default PNone (dict_get "platform_name" d);
  raw_clock := default PNone (dict_get "clock" d);
  raw_memory := default PNone (dict_get "memory" d);
  raw_peripheral := default PNone (dict_get "peripheral" d);
  raw_feature := default PNone (dict_get "feature" d);
  raw_module := default PNone (dict_get "module" d);
  raw_debug := default PNone (dict_get "debug" d)
|}.

Definition loaded_stm32f1 : RawConfig :=
  raw_of_dict (preset_document stm32f1_config).


(** The world after [custom.json] was loaded. *)
Definition world_after_load (document : string) : MemIO.world :=
  mkWorld {["custom.json" := document]} ["配置JSON文件加载成功: custom.json"].

(** * Properties *)

(** ** The conditional source lists *)

Lemma makefile_module_sources_rules m :
  makefile_module_sources m = apply_rules makefile_rules m.
Proof.
  unfold makefile_module_sources; simpl.
  destruct m as [[] [] [] [] [] [] [] ? ? [] ? ? ? ?]; reflexivity.
Qed.

Lemma cmake_module_sources_rules m :
  cmake_module_sources m = apply_rules cmake_rules m.
Proof.
  unfold cmake_module_sources; simpl.
  destruct m as [[] [] [] [] [] ? ? ? ? [] ? ? ? ?]; reflexivity.
Qed.

(** A rule table reads only the flags it lists. *)
Lemma apply_rules_agree rules m m' :
  agree_on rules.*1 m m' → apply_rules rules m = apply_rules rules m'.
Proof.
  induction rules as [|[f line] rules IH]; intros Hagree; [reflexivity|].
  simpl. rewrite (Hagree f) by (simpl; left).
  f_equal. apply IH. intros g Hg. apply Hagree. simpl. by right.
Qed.

(** The two configurations that differ in [f] alone. *)
Lemma only_module_differs f g :
  g ≠ f → flag_enabled g no_module = flag_enabled g (only_module f).
Proof.
  intros Hne. destruct g; simpl; symmetry; apply bool_decide_eq_false; done.
Qed.

Lemma sensitive_by_evaluation render f :
  render no_module ≠ render (only_module f) → sensitive_to render f.
Proof.
  intros Hdiff. exists no_module, (only_module f). split; [|done].
  intros g Hg. by apply only_module_differs.
Qed.

(** A flag that makes a difference is in every list the renderer depends
    on. *)
Lemma sensitive_in_support render fl f :
  depends_only_on render fl → sensitive_to render f → f ∈ fl.
Proof.
  intros Hdep (m & m' & Hsame & Hdiff).
  destruct (decide (f ∈ fl)) as [|Hnot]; [done|].
  exfalso. apply Hdiff, Hdep. intros g Hg. apply Hsame. by intros ->.
Qed.

Lemma makefile_driven_by_its_rules :
  driven_by makefile_module_sources makefile_rules.*1.
Proof.
  split; [|split].
  - compute_done.
  - intros m m' Hagree. rewrite !makefile_module_sources_rules.
    by apply apply_rules_agree.
  - intros f Hf. apply sensitive_by_evaluation.
    simpl in Hf. repeat (apply elem_of_cons in Hf as [-> | Hf]);
      [by vm_compute .. | by apply elem_of_nil in Hf].
Qed.

Lemma cmake_driven_by_its_rules :
  driven_by cmake_module_sources cmake_rules.*1.
Proof.
  split; [|split].
  - compute_done.
  - intros m m' Hagree. rewrite !cmake_module_sources_rules.
    by apply apply_rules_agree.
  - intros f Hf. apply sensitive_by_evaluation.
    simpl in Hf. repeat (apply elem_of_cons in Hf as [-> | Hf]);
      [by vm_compute .. | by apply elem_of_nil in Hf].
Qed.

(** Two lists that drive the same renderer have the same length. *)
Lemma driven_by_length render fl fl' :
  driven_by render fl → driven_by render fl' → List.length fl = List.length fl'.
Proof.
  intros (Hnd & Hdep & Hsens) (Hnd' & Hdep' & Hsens').
  apply Nat.le_antisymm; apply submseteq_length, NoDup_submseteq; try done.
  - intros f Hf. eapply sensitive_in_support; eauto.
  - intros f Hf. eapply sensitive_in_support; eauto.
Qed.

(** ** Lines of a concatenation *)

Lemma append_String c (a b : string) : String c a ++ b = String c (a ++ b).
Proof. reflexivity. Qed.

Lemma append_assoc (a b c : string) : (a ++ b) ++ c = a ++ (b ++ c).
Proof.
  induction a as [|x a IH]; [reflexivity|].
  by rewrite !append_String, IH.
Qed.

Lemma lines_from_app_nl cur a b :
  lines_from cur (a ++ String nl b) = (lines_from cur a ++ lines b)%list.
Proof.
  revert cur. induction a as [|c a IH]; intros cur.
  - reflexivity.
  - rewrite append_String. simpl.
    destruct (Ascii.eqb c nl); simpl; by rewrite IH.
Qed.

(** [(a + '\n' + b).split('\n') == a.split('\n') + b.split('\n')] *)
Lemma lines_app_nl a b : lines (a ++ String nl b) = (lines a ++ lines b)%list.
Proof. apply lines_from_app_nl. Qed.

Lemma has_line_app_nl l a b :
  has_line l (a ++ String nl b) = has_line l a || has_line l b.
Proof. unfold has_line. by rewrite lines_app_nl, existsb_app. Qed.

Lemma has_line_after l a b :
  has_line l b = true → has_line l (a ++ String nl b) = true.
Proof. intros H. rewrite has_line_app_nl, H. apply orb_true_r. Qed.

Lemma has_line_before l a b :
  has_line l a = true → has_line l (a ++ String nl b) = true.
Proof. intros H. by rewrite has_line_app_nl, H. Qed.

(** ** The conditional source lists (C6, C7) *)

(** C7: the Makefile's conditional source lines are one rule per flag for
    exactly eight of the fourteen module flags, applied in the order of
    [makefile_rules] after the block that holds the fixed base source list;
    the text they produce depends on those eight flags only, and on each of
    them. *)
Theorem makefile_eight_rules_in_order :
  List.length all_module_flags = 14 ∧
  List.length makefile_rules = 8 ∧
  (∀ m, makefile_module_sources m = apply_rules makefile_rules m) ∧
  driven_by makefile_module_sources makefile_rules.*1 ∧
  (∀ platform config,
     makefile_text platform config =
       makefile_head platform config ++ makefile_toolchain platform ++ makefile_flags
       ++ apply_rules makefile_rules (module config) ++ makefile_tail) ∧
  has_line "SOURCES = main_hw_enhanced.c system_support.c" makefile_flags = true.
Proof.
  split; [reflexivity|]. split; [reflexivity|].
  split; [apply makefile_module_sources_rules|].
  split; [apply makefile_driven_by_its_rules|].
  split; [|by vm_compute].
  intros platform config. unfold makefile_text.
  by rewrite makefile_module_sources_rules.
Qed.

(** C6, as stated, fails: no list of five flags drives the conditional
    source list of CMakeLists.txt. *)
Lemma cmake_not_driven_by_five_flags :
  ¬ ∃ fl, List.length fl = 5 ∧ driven_by cmake_module_sources fl.
Proof.
  intros (fl & Hlen & Hfl).
  pose proof (driven_by_length _ _ _ Hfl cmake_driven_by_its_rules) as Heq.
  rewrite Hlen in Heq. discriminate Heq.
Qed.

(** C6, amended: the conditional source list of CMakeLists.txt is driven by
    exactly six module flags (power management, memory monitor, watchdog,
    GPIO, UART and DMA), applied in the order of [cmake_rules]; they are six
    of the eight flags that drive the Makefile's list, which reads the SPI
    and I2C flags besides.  The text of CMakeLists.txt holds the lines of
    the six rules between its flag block and its fixed tail. *)
Theorem cmake_six_rules_within_makefile_eight :
  List.length cmake_rules = 6 ∧
  (∀ m, cmake_module_sources m = apply_rules cmake_rules m) ∧
  driven_by cmake_module_sources cmake_rules.*1 ∧
  List.length makefile_rules = 8 ∧
  driven_by makefile_module_sources makefile_rules.*1 ∧
  cmake_rules.*1 ⊆ makefile_rules.*1 ∧
  (∀ f, f ∈ makefile_rules.*1 ∧ f ∉ cmake_rules.*1
        ↔ f = spi_abstraction ∨ f = i2c_abstraction) ∧
  (∀ platform config,
     cmake_text platform config =
       cmake_head platform config ++ cmake_toolchain platform ++ cmake_flags
       ++ apply_rules cmake_rules (module config) ++ cmake_tail).
Proof.
  split; [reflexivity|].
  split; [apply cmake_module_sources_rules|].
  split; [apply cmake_driven_by_its_rules|].
  split; [reflexivity|].
  split; [apply makefile_driven_by_its_rules|].
  split.
  - intros f Hf. destruct f; first [compute_done | exfalso; revert Hf; compute_done].
  - split; [intros f; destruct f; compute_done|].
    intros platform config. unfold cmake_text.
    by rewrite cmake_module_sources_rules.
Qed.

(** A line of a block is a line of every text the block is part of. *)
Lemma has_line_in_block l pre block post :
  is_block block = true → has_line l (inner block) = true →
  has_line l (pre ++ block ++ post) = true.
Proof.
  intros Hblock Hl. apply String.eqb_eq in Hblock. rewrite Hblock.
  rewrite append_String. apply has_line_after.
  rewrite append_assoc, append_String. by apply has_line_before.
Qed.

Lemma has_line_in_last_block l pre block :
  is_block block = true → has_line l (inner block) = true →
  has_line l (pre ++ block) = true.
Proof.
  intros Hblock Hl. apply String.eqb_eq in Hblock. rewrite Hblock.
  apply has_line_after. by apply has_line_before.
Qed.

(** ** The header of the 168 MHz preset (C9) *)

(** C9: the header rendered for the stm32f4 preset, whose system clock is
    168 MHz, has the line that defines the system-clock constant as
    168000000, and its platform-family block, which follows the body of the
    header, has the line of the identity macro STM32F40_41xxx. *)
Theorem stm32f4_header_clock_and_identity :
  platforms_init !! STM32F4 = Some (Built stm32f4_config) ∧
  system_clock_freq (clock stm32f4_config) = 168000000%Z ∧
  ∃ text,
    header_content STM32F4 (Built stm32f4_config) = inr text ∧
    text = header_body STM32F4 stm32f4_config ++ platform_macros STM32F4 ++ header_footer ∧
    has_line "#define RTOS_HW_SYSTEM_CLOCK_FREQ          168000000" text = true ∧
    has_line "#define RTOS_HW_SYSTEM_CLOCK_FREQ          168000000"
      (header_body STM32F4 stm32f4_config) = true ∧
    has_line "#define STM32F40_41xxx                     1" text = true ∧
    has_line "#define STM32F40_41xxx                     1" (platform_macros STM32F4) = true ∧
    MemIO.generate_config_header platforms_init STM32F4
      "generated/stm32f4/hw_config_generated.h" empty_world
    = (inr true,
       mkWorld {["generated/stm32f4/hw_config_generated.h" := text]}
         ["配置头文件生成成功: generated/stm32f4/hw_config_generated.h"]).
Proof.
  split; [reflexivity|]. split; [reflexivity|].
  eexists. split; [reflexivity|].
  split; [reflexivity|].
  repeat split; vm_compute; reflexivity.
Qed.

(** ** The literal blocks of the build files (C10) *)

Lemma makefile_flags_block : is_block makefile_flags = true.
Proof. by vm_compute. Qed.

Lemma makefile_tail_block : is_block makefile_tail = true.
Proof. by vm_compute. Qed.

Lemma cmake_flags_block : is_block cmake_flags = true.
Proof. by vm_compute. Qed.

Lemma makefile_text_flags_line l platform config :
  has_line l (inner makefile_flags) = true →
  has_line l (makefile_text platform config) = true.
Proof.
  intros Hl. unfold makefile_text. rewrite <- append_assoc.
  by apply has_line_in_block; [apply makefile_flags_block|].
Qed.

Lemma makefile_text_tail_line l platform config :
  has_line l (inner makefile_tail) = true →
  has_line l (makefile_text platform config) = true.
Proof.
  intros Hl. unfold makefile_text.
  rewrite <- (append_assoc makefile_flags), <- (append_assoc (makefile_toolchain _)),
    <- (append_assoc (makefile_head _ _)).
  by apply has_line_in_last_block; [apply makefile_tail_block|].
Qed.

Lemma cmake_text_flags_line l platform config :
  has_line l (inner cmake_flags) = true →
  has_line l (cmake_text platform config) = true.
Proof.
  intros Hl. unfold cmake_text. rewrite <- append_assoc.
  by apply has_line_in_block; [apply cmake_flags_block|].
Qed.

(** The three presets set the eight flags the Makefile reads alike. *)
Lemma presets_agree_on_makefile_flags p c p' c' :
  platforms_init !! p = Some (Built c) → platforms_init !! p' = Some (Built c') →
  agree_on makefile_rules.*1 (module c) (module c').
Proof.
  intros Hp Hp' f Hf.
  destruct p, p'; vm_compute in Hp, Hp'; try discriminate;
    injection Hp as <-; injection Hp' as <-;
    simpl in Hf; repeat (apply elem_of_cons in Hf as [-> | Hf]);
    first [reflexivity | by apply elem_of_nil in Hf].
Qed.

(** C10: whatever the platform and the configuration, the Makefile holds the
    same literal blocks: the compile-flag defines of the STM32F4, the include
    paths, the firmware-library source list and the STM32F407 link script.
    The text is the head (platform value and name), the compiler block of
    the platform, and a rest that is the same for every platform whose
    configuration sets the eight module flags alike, as the three presets
    do.  The flag block of CMakeLists.txt carries the same defines. *)
Theorem makefile_literal_blocks_for_every_platform platform config :
  let text := makefile_text platform config in
  text = makefile_head platform config ++ makefile_toolchain platform ++
         makefile_flags ++ makefile_module_sources (module config) ++ makefile_tail ∧
  has_line "CFLAGS += -DSTM32F40_41xxx -DUSE_STDPERIPH_DRIVER -DHSE_VALUE=25000000" text = true ∧
  has_line "INCLUDES = -I. -Irtos -Irtos/core -Irtos/hw -Irtos/hw/security -Irtos/hw/network -Irtos/hw/ota -Irtos/hw/debug" text = true ∧
  has_line "INCLUDES += -Ifwlib/inc -Ifwlib/CMSIS/STM32F4xx/Include -Ifwlib/CMSIS/Include" text = true ∧
  has_line "FWLIB_SOURCES = fwlib/src/stm32f4xx_rcc.c fwlib/src/stm32f4xx_tim.c" text = true ∧
  has_line "FWLIB_SOURCES += fwlib/src/stm32f4xx_gpio.c fwlib/src/stm32f4xx_usart.c" text = true ∧
  has_line "FWLIB_SOURCES += fwlib/src/stm32f4xx_pwr.c fwlib/src/stm32f4xx_adc.c" text = true ∧
  has_line "FWLIB_SOURCES += fwlib/src/stm32f4xx_iwdg.c fwlib/src/stm32f4xx_wwdg.c" text = true ∧
  has_line "FWLIB_SOURCES += fwlib/src/stm32f4xx_dma.c fwlib/src/stm32f4xx_spi.c" text = true ∧
  has_line "FWLIB_SOURCES += fwlib/src/stm32f4xx_i2c.c fwlib/src/stm32f4xx_dac.c" text = true ∧
  has_line "FWLIB_SOURCES += fwlib/src/misc.c" text = true ∧
  has_line "LDSCRIPT = STM32F407VGTx_FLASH.ld" text = true ∧
  has_line ("set(CMAKE_C_FLAGS " ++ dq ++ "${CMAKE_C_FLAGS} -DSTM32F40_41xxx -DUSE_STDPERIPH_DRIVER -DHSE_VALUE=25000000" ++ dq ++ ")")
    (cmake_text platform config) = true ∧
  (∀ platform' config',
     agree_on makefile_rules.*1 (module config) (module config') →
     ∃ rest,
       text = makefile_head platform config ++ makefile_toolchain platform ++ rest ∧
       makefile_text platform' config' =
         makefile_head platform' config' ++ makefile_toolchain platform' ++ rest) ∧
  (∀ p c p' c',
     platforms_init !! p = Some (Built c) → platforms_init !! p' = Some (Built c') →
     agree_on makefile_rules.*1 (module c) (module c')) ∧
  (∀ platform' config',
     value platform = value platform' → platform_name config = platform_name config' →
     makefile_head platform config = makefile_head platform' config').
Proof.
  intros text. subst text.
  split; [reflexivity|].
  do 3 (split; [by apply makefile_text_flags_line; vm_compute|]).
  do 8 (split; [by apply makefile_text_tail_line; vm_compute|]).
  split; [by apply cmake_text_flags_line; vm_compute|].
  split; [|split].
  - intros platform' config' Hagree. eexists. split; [reflexivity|].
    unfold makefile_text.
    by rewrite !makefile_module_sources_rules, (apply_rules_agree _ _ _ Hagree).
  - apply presets_agree_on_makefile_flags.
  - intros platform' config' Hv Hn. unfold makefile_head. by rewrite Hv, Hn.
Qed.

(** The witness of C10: the stm32f1 and stm32f7 presets. *)
Lemma makefile_literal_blocks_witness :
  agree_on makefile_rules.*1 (module stm32f1_config) (module stm32f7_config) ∧
  ∃ rest,
    makefile_text STM32F1 stm32f1_config =
      makefile_head STM32F1 stm32f1_config ++ makefile_toolchain STM32F1 ++ rest ∧
    makefile_text STM32F7 stm32f7_config =
      makefile_head STM32F7 stm32f7_config ++ makefile_toolchain STM32F7 ++ rest.
Proof.
  assert (Hagree : agree_on makefile_rules.*1 (module stm32f1_config) (module stm32f7_config)).
  { intros f Hf. simpl in Hf.
    repeat (apply elem_of_cons in Hf as [-> | Hf]);
      first [reflexivity | by apply elem_of_nil in Hf]. }
  split; [exact Hagree|].
  pose proof (makefile_literal_blocks_for_every_platform STM32F1 stm32f1_config) as H.
  simpl in H.
  exact (proj1 (proj2 (proj2 (proj2 (proj2 (proj2 (proj2 (proj2 (proj2 (proj2 (proj2
          (proj2 (proj2 (proj2 H))))))))))))) STM32F7 stm32f7_config Hagree).
Defined.

(** ** The generator over any platform *)

Lemma platforms_init_lookup p :
  platforms_init !! p =
    match p with
    | STM32F1 => Some (Built stm32f1_config)
    | STM32F4 => Some (Built stm32f4_config)
    | STM32F7 => Some (Built stm32f7_config)
    | RISC_V | X86_64 => None
    end.
Proof. by destruct p. Qed.

(** The encoder stops at the first field of a typed object. *)
Lemma json_encode_Built c :
  json_encode 0 (asdict (Built c)) =
    ("{" ++ newline_indent 1 ++ encode_basestring "platform_type" ++ ": ",
     Some (not_serializable (PEnum (platform_type c)))).
Proof. reflexivity. Qed.

(** ** The constructor behind the decoder *)

Lemma find_unexpected_key (d : list (string * pyval)) :
  match List.find (fun kv => negb (is_field_name (fst kv))) d with
  | Some _ => forallb (fun kv => is_field_name (fst kv)) d = false
  | None => forallb (fun kv => is_field_name (fst kv)) d = true
  end.
Proof.
  induction d as [|[k v] d IH]; simpl; [reflexivity|].
  destruct (is_field_name k); simpl; [exact IH | reflexivity].
Qed.

(** The constructor accepts exactly the dicts with the eight field names
    as keys, and stores under each field the value the dict gives it. *)
Lemma PlatformConfig_new_spec v :
  match PlatformConfig_new v with
  | inr c =>
      has_the_eight_fields v = true ∧
      (∃ r, c = Loaded r) ∧
      ∀ k, k ∈ field_names → stored_field k c = document_field k v
  | inl e => has_the_eight_fields v = false ∧ is_TypeError e = true
  end.
Proof.
  destruct v as [| | | | | |d|]; try (by split).
  unfold PlatformConfig_new, has_the_eight_fields.
  pose proof (find_unexpected_key d) as Hkeys.
  destruct (List.find _ d) as [[k x]|]; [by rewrite Hkeys|].
  rewrite Hkeys. simpl.
  destruct (dict_get "platform_type" d) as [ty|] eqn:H1; [|by split].
  destruct (dict_get "platform_name" d) as [name|] eqn:H2; [|by split].
  destruct (dict_get "clock" d) as [clk|] eqn:H3; [|by split].
  destruct (dict_get "memory" d) as [mem|] eqn:H4; [|by split].
  destruct (dict_get "peripheral" d) as [per|] eqn:H5; [|by split].
  destruct (dict_get "feature" d) as [feat|] eqn:H6; [|by split].
  destruct (dict_get "module" d) as [mdl|] eqn:H7; [|by split].
  destruct (dict_get "debug" d) as [dbg|] eqn:H8; [|by split].
  split; [by vm_compute|]. split; [by eexists|].
  intros k Hk. unfold field_names in Hk.
  repeat (apply elem_of_cons in Hk as [-> | Hk]);
    [by simpl; symmetry .. | by apply elem_of_nil in Hk].
Qed.

Lemma has_the_eight_fields_memory d :
  dict_get "memory" d = None → has_the_eight_fields (PDict d) = false.
Proof.
  intros H. unfold has_the_eight_fields. simpl. rewrite H.
  rewrite (bool_decide_eq_false_2 (is_Some None)) by (by intros [? ?]).
  rewrite !andb_false_r. reflexivity.
Qed.

(** A dict with the eight keys is accepted whatever its values are, and
    the object built holds them as they are. *)
Lemma PlatformConfig_new_accepts d :
  has_the_eight_fields (PDict d) = true →
  PlatformConfig_new (PDict d) = inr (Loaded (raw_of_dict d)).
Proof.
  unfold PlatformConfig_new, has_the_eight_fields, raw_of_dict.
  pose proof (find_unexpected_key d) as Hkeys.
  destruct (List.find _ d) as [[k x]|]; [by rewrite Hkeys|].
  rewrite Hkeys. simpl.
  destruct (dict_get "platform_type" d) as [ty|]; [|done].
  destruct (dict_get "platform_name" d) as [name|]; [|done].
  destruct (dict_get "clock" d) as [clk|]; [|done].
  destruct (dict_get "memory" d) as [mem|]; [|done].
  destruct (dict_get "peripheral" d) as [per|]; [|done].
  destruct (dict_get "feature" d) as [feat|]; [|done].
  destruct (dict_get "module" d) as [mdl|]; [|done].
  destruct (dict_get "debug" d) as [dbg|]; [|done].
  done.
Qed.

Lemma has_the_eight_fields_dict v :
  has_the_eight_fields v = true → ∃ d, v = PDict d.
Proof. destruct v; try discriminate. by eexists. Qed.

(** A value of a JSON dict is a JSON value, so not a [PlatformType]
    member. *)
Lemma json_value_dict_get k d x :
  json_value (PDict d) = true → dict_get k d = Some x → json_value x = true.
Proof.
  simpl. induction d as [|[k' y] d IH]; simpl; [discriminate|].
  intros [Hy Hd]%andb_prop. destruct (String.eqb k k'); [|by apply IH].
  by intros [= <-].
Qed.

(** An object loaded from a JSON document is equal to no identifier. *)
Lemma loaded_identifies_nothing d p :
  json_value (PDict d) = true → identifies (Loaded (raw_of_dict d)) p = false.
Proof.
  intros Hjson. unfold identifies. simpl.
  destruct (dict_get "platform_type" d) as [x|] eqn:Hx; [|reflexivity].
  apply (json_value_dict_get _ _ _ Hjson) in Hx. by destruct x.
Qed.

Section GeneratorProperties.
Context {FS : Type}.
Variable os_path_dirname : string → string.
Variable os_path_join : string → string → string.
Variable os_makedirs : string → FS → option exn * FS.
Variable open_w : string → FS → option exn * FS.
Variable f_write : string → string → FS → option exn * FS.
Variable read_text : string → FS → exn + string.
Variable json_loads : string → exn + pyval.

Local Abbreviation generate_config_header :=
  (generate_config_header os_path_dirname os_makedirs open_w f_write).
Local Abbreviation generate_makefile :=
  (generate_makefile os_path_dirname os_makedirs open_w f_write).
Local Abbreviation generate_cmake_file :=
  (generate_cmake_file os_path_dirname os_makedirs open_w f_write).
Local Abbreviation save_config_json :=
  (save_config_json os_path_dirname os_makedirs open_w f_write).
Local Abbreviation load_config_json := (load_config_json read_text json_loads).
Local Abbreviation main_override := (main_override read_text json_loads).
Local Abbreviation generate_artifacts :=
  (generate_artifacts os_path_dirname os_path_join os_makedirs open_w f_write).
Local Abbreviation main_platform :=
  (main_platform os_path_dirname os_path_join os_makedirs open_w f_write
     read_text json_loads).

Lemma generate_config_header_not_found self platform output_file w :
  self !! platform = None →
  generate_config_header self platform output_file w = not_found platform w.
Proof. intros H. unfold_generate_config_header. by rewrite H. Qed.

Lemma generate_makefile_not_found self platform output_file w :
  self !! platform = None →
  generate_makefile self platform output_file w = not_found platform w.
Proof. intros H. unfold_generate_makefile. by rewrite H. Qed.

Lemma generate_cmake_file_not_found self platform output_file w :
  self !! platform = None →
  generate_cmake_file self platform output_file w = not_found platform w.
Proof. intros H. unfold_generate_cmake_file. by rewrite H. Qed.

Lemma save_config_json_not_found self platform output_file w :
  self !! platform = None →
  save_config_json self platform output_file w = (inr false, w).
Proof. intros H. unfold_save_config_json. by rewrite H. Qed.

(** Saving a typed object returns [False]: either the platform refuses the
    directory or the file, or the encoder raises. *)
Lemma save_config_json_Built self platform c output_file w :
  self !! platform = Some (Built c) →
  fst (save_config_json self platform output_file w) = inr false.
Proof.
  intros H. unfold_save_config_json. rewrite H.
  unfold try_except, json_dump. rewrite json_encode_Built. run.
  destruct (os_makedirs _ _) as [[e1|] fs1]; [reflexivity|].
  destruct (open_w _ _) as [[e2|] fs2]; [reflexivity|]. simpl.
  destruct (f_write _ _ _) as [[e3|] fs3]; reflexivity.
Qed.

(** [load_config_json] catches what it raises, and what it returns was
    built by the constructor from the decoded document. *)
Lemma load_config_json_cases input_file w :
  fs (snd (load_config_json input_file w)) = fs w ∧
  ((∃ text v c,
      read_text input_file (fs w) = inr text ∧ json_loads text = inr v ∧
      PlatformConfig_new v = inr c ∧
      fst (load_config_json input_file w) = inr (Some c))
   ∨
   (fst (load_config_json input_file w) = inr None ∧
    match read_text input_file (fs w) with
    | inl _ => True
    | inr text =>
        match json_loads text with
        | inl _ => True
        | inr v => ∃ e, PlatformConfig_new v = inl e
        end
    end)).
Proof.
  unfold_load_config_json. run.
  destruct (read_text input_file (fs w)) as [e|text] eqn:Hread; simpl;
    [by split; [|right]|].
  destruct (json_loads text) as [e|v] eqn:Hjson; simpl; [by split; [|right]|].
  destruct (PlatformConfig_new v) as [e|c] eqn:Hnew; simpl.
  - split; [done|]. right. split; [done|]. by exists e.
  - split; [done|]. left. exists text, v, c. by repeat split.
Qed.


(** A document with the eight keys loads, whatever its values are. *)
Lemma load_config_json_accepts input_file text d w :
  read_text input_file (fs w) = inr text → json_loads text = inr (PDict d) →
  has_the_eight_fields (PDict d) = true →
  fst (load_config_json input_file w) = inr (Some (Loaded (raw_of_dict d))).
Proof.
  intros Hread Hjson Hfields.
  pose proof (PlatformConfig_new_accepts d Hfields) as Hnew.
  destruct (load_config_json_cases input_file w)
    as [_ [(text' & v & c & Hread' & Hjson' & Hnew' & ->) | [_ Hnone]]].
  - congruence.
  - rewrite Hread, Hjson, Hnew in Hnone. by destruct Hnone.
Qed.

(** The override, run: the registry and the world it returns. *)
Lemma main_override_run generator platform config_file w :
  main_override generator platform config_file w =
  (inr match config_file with
       | Some file =>
           if String.eqb file EmptyString then generator
           else match fst (load_config_json file w) with
                | inr (Some c) => <[platform := c]> generator
                | _ => generator
                end
       | None => generator
       end,
   match config_file with
   | Some file =>
       if String.eqb file EmptyString then w else snd (load_config_json file w)
   | None => w
   end).
Proof.
  unfold_main_override. destruct config_file as [file|]; [|done].
  destruct (String.eqb file EmptyString); [done|].
  unfold mbind, M_bind.
  destruct (load_config_json_cases file w) as [_ Hcases].
  destruct (load_config_json file w) as [res w']. simpl in *.
  by destruct Hcases as [(? & ? & c & _ & _ & _ & ->) | [-> _]].
Qed.






(** ** The registry and the identifiers without a preset (C4, C5) *)

Lemma platforms_init_own_keys : stored_under_own_key platforms_init.
Proof.
  intros p c H. rewrite platforms_init_lookup in H.
  by destruct p; simplify_eq.
Qed.

(** C5: initialization stores presets for exactly three identifiers; RISC_V
    and X86_64 are members of the enumeration without one.  For an
    identifier without a preset the lookup finds nothing, and each of the
    four renderers returns [False] and leaves the file system as it was
    (the three text renderers after printing that the platform is not
    supported). *)
Theorem unregistered_platform_not_found platform output_file (w : World FS) :
  platforms_init !! platform = None →
  dom platforms_init = ({[STM32F1; STM32F4; STM32F7]} : gset PlatformType) ∧
  size platforms_init = 3 ∧
  platforms_init !! RISC_V = None ∧ platforms_init !! X86_64 = None ∧
  (platform = RISC_V ∨ platform = X86_64) ∧
  generate_config_header platforms_init platform output_file w = not_found platform w ∧
  generate_makefile platforms_init platform output_file w = not_found platform w ∧
  generate_cmake_file platforms_init platform output_file w = not_found platform w ∧
  save_config_json platforms_init platform output_file w = (inr false, w) ∧
  fs (snd (not_found platform w)) = fs w.
Proof.
  intros Hnone.
  split; [by vm_compute|]. split; [by vm_compute|].
  split; [reflexivity|]. split; [reflexivity|].
  split; [destruct platform; try discriminate Hnone; auto|].
  split; [by apply generate_config_header_not_found|].
  split; [by apply generate_makefile_not_found|].
  split; [by apply generate_cmake_file_not_found|].
  split; [by apply save_config_json_not_found | reflexivity].
Qed.

(** C4, on the code: after initialization each of the three presets is
    stored under its own identifier.  The override writes no file and changes
    no entry but the one of the requested platform: there it stores the
    object [load_config_json] returned, if it returned one, and compares
    nothing.  Whenever the file holds a JSON document with the eight keys,
    an object is stored, and its [platform_type] is the value the document
    gives it, a str at best and never the [PlatformType] member: the stored
    object is not under its own key, for every platform and every such
    document. *)
Theorem registry_keys_broken_by_override generator platform config_file
    (w : World FS) :
  stored_under_own_key platforms_init ∧
  ∃ generator' w',
    main_override generator platform config_file w = (inr generator', w') ∧
    fs w' = fs w ∧
    (∀ p, p ≠ platform → generator' !! p = generator !! p) ∧
    generator' =
      match config_file with
      | Some file =>
          if String.eqb file EmptyString then generator
          else match fst (load_config_json file w) with
               | inr (Some c) => <[platform := c]> generator
               | _ => generator
               end
      | None => generator
      end ∧
    (∀ file text d,
       config_file = Some file → String.eqb file EmptyString = false →
       read_text file (fs w) = inr text → json_loads text = inr (PDict d) →
       has_the_eight_fields (PDict d) = true → json_value (PDict d) = true →
       generator' = <[platform := Loaded (raw_of_dict d)]> generator ∧
       stored_field "platform_type" (Loaded (raw_of_dict d))
       = dict_get "platform_type" d ∧
       identifies (Loaded (raw_of_dict d)) platform = false ∧
       ¬ stored_under_own_key generator').
Proof.
  split; [apply platforms_init_own_keys|].
  rewrite main_override_run. eexists _, _. split; [reflexivity|].
  split.
  { destruct config_file as [file|]; [|done].
    destruct (String.eqb file EmptyString); [done|].
    apply load_config_json_cases. }
  split.
  { intros p Hp. destruct config_file as [file|]; [|done].
    destruct (String.eqb file EmptyString); [done|].
    destruct (fst (load_config_json file w)) as [e|[c|]]; try done.
    by rewrite lookup_insert_ne. }
  split; [reflexivity|].
  intros file text d -> Hfile Hread Hjson Hfields Hvalue.
  rewrite Hfile, (load_config_json_accepts file text d w Hread Hjson Hfields).
  split; [reflexivity|].
  split.
  { pose proof (PlatformConfig_new_spec (PDict d)) as Hspec.
    rewrite (PlatformConfig_new_accepts d Hfields) in Hspec.
    destruct Hspec as (_ & _ & Hstored). apply Hstored.
    unfold field_names. apply elem_of_cons. by left. }
  split; [by apply loaded_identifies_nothing|].
  intros Hinv. specialize (Hinv platform _ (lookup_insert_eq _ _ _)).
  by rewrite loaded_identifies_nothing in Hinv.
Qed.

(** ** The JSON codec (C1, C2, C3) *)

(** C2, on the code: for every identifier, [save_config_json] on the
    initial registry returns [False]; for the three presets the encoder
    raises on the [PlatformType] member instead of writing its value. *)
Theorem save_config_json_fails_on_initial_registry platform output_file
    (w : World FS) :
  fst (save_config_json platforms_init platform output_file w) = inr false ∧
  ∀ c, platforms_init !! platform = Some (Built c) →
       snd (json_encode 0 (asdict (Built c)))
       = Some (TypeError "Object of type PlatformType is not JSON serializable").
Proof.
  split; [|by intros c _].
  pose proof (platforms_init_lookup platform) as Hp.
  destruct platform;
    first [ by eapply save_config_json_Built
          | by rewrite save_config_json_not_found ].
Qed.

(** C1, on the code: no typed configuration survives the round trip.  The
    encoder raises on its first field, so saving it returns [False], and
    whatever [load_config_json] returns is not a typed configuration. *)
Theorem json_round_trip_broken (c : PlatformConfig) :
  snd (json_encode 0 (asdict (Built c)))
  = Some (not_serializable (PEnum (platform_type c))) ∧
  (∀ self platform output_file (w : World FS),
     self !! platform = Some (Built c) →
     fst (save_config_json self platform output_file w) = inr false) ∧
  (∀ input_file (w : World FS),
     returns_Built (fst (load_config_json input_file w)) = false).
Proof.
  split; [reflexivity|]. split.
  - intros self platform output_file w H. by eapply save_config_json_Built.
  - intros input_file w.
    destruct (load_config_json_cases input_file w)
      as [_ [(text & v & c' & _ & _ & Hnew & ->) | [-> _]]]; [|reflexivity].
    pose proof (PlatformConfig_new_spec v) as Hspec. rewrite Hnew in Hspec.
    by destruct Hspec as (_ & [r ->] & _).
Qed.

(** C3, on the code: [load_config_json] never raises and writes no file.
    It returns no object when the file cannot be read, when the parser
    rejects its text, and when the decoded value is not a dict whose keys
    are the eight field names, each present: a document without the memory
    key yields none.  On every other document it returns an object: the
    constructor looks at the names of the keys only, so each field of the
    object holds the value the document gives its key, whatever that value
    is.  No field gets a default, and no value is checked or converted; a
    document whose fields hold values of other types is accepted. *)
Theorem load_config_json_checks_keys_only input_file (w : World FS) :
  let r := load_config_json input_file w in
  fs (snd r) = fs w ∧
  (∀ e, read_text input_file (fs w) = inl e → fst r = inr None) ∧
  (∀ text e,
     read_text input_file (fs w) = inr text → json_loads text = inl e →
     fst r = inr None) ∧
  (∀ text v,
     read_text input_file (fs w) = inr text → json_loads text = inr v →
     has_the_eight_fields v = false → fst r = inr None) ∧
  (∀ text d,
     read_text input_file (fs w) = inr text → json_loads text = inr (PDict d) →
     dict_get "memory" d = None → fst r = inr None) ∧
  (∀ text d,
     read_text input_file (fs w) = inr text → json_loads text = inr (PDict d) →
     has_the_eight_fields (PDict d) = true →
     fst r = inr (Some (Loaded (raw_of_dict d))) ∧
     ∀ k, k ∈ field_names →
          stored_field k (Loaded (raw_of_dict d)) = dict_get k d) ∧
  (∀ c, fst r = inr (Some c) →
     ∃ text d,
       read_text input_file (fs w) = inr text ∧ json_loads text = inr (PDict d) ∧
       has_the_eight_fields (PDict d) = true ∧ c = Loaded (raw_of_dict d)).
Proof.
  intros r. subst r.
  destruct (load_config_json_cases input_file w) as [Hfs Hcases].
  split; [done|].
  assert (Hbad : ∀ text v,
    read_text input_file (fs w) = inr text → json_loads text = inr v →
    has_the_eight_fields v = false → fst (load_config_json input_file w) = inr None).
  { intros text v Hread Hjson Hfields.
    destruct Hcases as [(text' & v' & c & Hread' & Hjson' & Hnew & _) | [-> _]]; [|done].
    rewrite Hread in Hread'. injection Hread' as <-.
    rewrite Hjson in Hjson'. injection Hjson' as <-.
    pose proof (PlatformConfig_new_spec v) as Hspec. rewrite Hnew in Hspec.
    destruct Hspec as [Hok _]. congruence. }
  split; [|split; [|split; [|split; [|split]]]].
  - intros e Hread.
    destruct Hcases as [(text & v & c & Hread' & _) | [-> _]]; [congruence | done].
  - intros text e Hread Hjson.
    destruct Hcases as [(text' & v & c & Hread' & Hjson' & _) | [-> _]]; [|done].
    rewrite Hread in Hread'. injection Hread' as <-. congruence.
  - exact Hbad.
  - intros text d Hread Hjson Hmem. eapply Hbad; eauto.
    by apply has_the_eight_fields_memory.
  - intros text d Hread Hjson Hfields.
    split; [by eapply load_config_json_accepts|].
    pose proof (PlatformConfig_new_spec (PDict d)) as Hspec.
    rewrite (PlatformConfig_new_accepts d Hfields) in Hspec.
    by destruct Hspec as (_ & _ & Hstored).
  - intros c Hc.
    destruct Hcases as [(text & v & c' & Hread & Hjson & Hnew & Hres) | [Hres _]];
      [|congruence].
    rewrite Hres in Hc. injection Hc as <-.
    pose proof (PlatformConfig_new_spec v) as Hspec. rewrite Hnew in Hspec.
    destruct Hspec as (Hok & _ & _).
    destruct (has_the_eight_fields_dict v Hok) as [d ->].
    exists text, d. repeat split; [done..|].
    rewrite (PlatformConfig_new_accepts d Hok) in Hnew. congruence.
Qed.

(** ** The compiler block of the Makefile (C8) *)


(** ** The renderers beyond the claims *)

(** On an object stored by the override the three text renderers raise
    [AttributeError] at the first section they read, outside their [try],
    and leave the world as it was. *)
Theorem renderers_raise_on_loaded_object self platform r output_file (w : World FS) :
  self !! platform = Some (Loaded r) →
  generate_config_header self platform output_file w
  = (inl (no_attribute (raw_clock r) "system_clock_freq"), w) ∧
  generate_makefile self platform output_file w
  = (inl (no_attribute (raw_module r) "power_management_enabled"), w) ∧
  generate_cmake_file self platform output_file w
  = (inl (no_attribute (raw_module r) "power_management_enabled"), w).
Proof.
  intros H.
  unfold_generate_config_header. unfold_generate_makefile. unfold_generate_cmake_file.
  by rewrite H.
Qed.

(** When the platform creates the directory, opens the file and takes the
    write, [generate_makefile] on a typed object leaves the file system the
    write left, prints its success and returns [True]. *)
Theorem generate_makefile_writes_text self platform c output_file (w : World FS)
    fs1 fs2 fs3 :
  self !! platform = Some (Built c) →
  os_makedirs (os_path_dirname output_file) (fs w) = (None, fs1) →
  open_w output_file fs1 = (None, fs2) →
  f_write output_file (makefile_text platform c) fs2 = (None, fs3) →
  generate_makefile self platform output_file w
  = (inr true,
     mkWorld fs3 (console w ++ [("Makefile生成成功: " ++ output_file)%string])%list).
Proof.
  intros H H1 H2 H3. unfold_generate_makefile. rewrite H. run.
  rewrite H1; simpl. rewrite H2; simpl. by rewrite H3.
Qed.

End GeneratorProperties.

(** ** Runs on [MemIO] *)

(** The witness of C5: RISC_V has no preset, and the Makefile renderer
    answers that it is not supported without writing a file. *)
Lemma unregistered_platform_not_found_witness :
  platforms_init !! RISC_V = None ∧
  MemIO.generate_makefile platforms_init RISC_V "generated/riscv/Makefile" empty_world
  = (inr false, mkWorld ∅ ["错误: 不支持的平台 PlatformType.RISC_V"]) ∧
  MemIO.save_config_json platforms_init RISC_V "generated/riscv/platform_config.json"
    empty_world
  = (inr false, empty_world).
Proof.
  split; [reflexivity|].
  pose proof (unregistered_platform_not_found MemIO.dirname MemIO.makedirs MemIO.open_w
                MemIO.f_write RISC_V "generated/riscv/Makefile" empty_world eq_refl) as H1.
  pose proof (unregistered_platform_not_found MemIO.dirname MemIO.makedirs MemIO.open_w
                MemIO.f_write RISC_V "generated/riscv/platform_config.json" empty_world
                eq_refl) as H2.
  split.
  - exact (proj1 (proj2 (proj2 (proj2 (proj2 (proj2 (proj2 H1))))))).
  - exact (proj1 (proj2 (proj2 (proj2 (proj2 (proj2 (proj2 (proj2 (proj2 H2))))))))).
Defined.

(** The override compares nothing: the stm32f1 document given for
    [--platform stm32f4] is stored under STM32F4. *)
Example override_stores_other_platform :
  MemIO.main_override platforms_init STM32F4 (Some "custom.json")
    (world_with stm32f1_document)
  = (inr (<[STM32F4 := Loaded loaded_stm32f1]> platforms_init),
     world_after_load stm32f1_document) ∧
  raw_platform_type loaded_stm32f1 = PStr "stm32f1".
Proof. split; [vm_compute; reflexivity | reflexivity]. Qed.

(** C4 at its failing input: the stm32f1 document given for
    [--platform stm32f1] is stored under STM32F1 with the str stm32f1 as its
    identifier, which is not the member it is stored under. *)
Lemma registry_keys_broken_by_override_witness :
  MemIO.json_loads stm32f1_document = inr (PDict (preset_document stm32f1_config)) ∧
  dict_get "platform_type" (preset_document stm32f1_config) = Some (PStr "stm32f1") ∧
  fst (MemIO.main_override platforms_init STM32F1 (Some "custom.json")
         (world_with stm32f1_document))
  = inr (<[STM32F1 := Loaded loaded_stm32f1]> platforms_init) ∧
  identifies (Loaded loaded_stm32f1) STM32F1 = false ∧
  ¬ stored_under_own_key (<[STM32F1 := Loaded loaded_stm32f1]> platforms_init).
Proof.
  assert (Hjson : MemIO.json_loads stm32f1_document
                  = inr (PDict (preset_document stm32f1_config)))
    by (vm_compute; reflexivity).
  destruct (registry_keys_broken_by_override MemIO.read_text MemIO.json_loads
              platforms_init STM32F1 (Some "custom.json") (world_with stm32f1_document))
    as (_ & generator & w' & Hrun & _ & _ & _ & Hdoc).
  destruct (Hdoc "custom.json" stm32f1_document (preset_document stm32f1_config)
              eq_refl eq_refl eq_refl Hjson eq_refl eq_refl)
    as (Hgen & _ & Hid & Hinv).
  subst generator.
  split; [exact Hjson|]. split; [reflexivity|].
  split; [unfold MemIO.main_override; by rewrite Hrun|].
  split; [exact Hid | exact Hinv].
Defined.

(** C3 at its failing input: a document whose eight fields hold values of
    other types, and whose memory section has no field, decodes to an
    object.  The stm32f1 document without its memory section yields none. *)
Lemma load_config_json_checks_keys_only_witness :
  MemIO.json_loads mismatched_document = inr (PDict mismatched_dict) ∧
  fst (MemIO.load_config_json "custom.json" (world_with mismatched_document))
  = inr (Some (Loaded {|
      raw_platform_type := PInt 7;
      raw_platform_name := PNone;
      raw_clock := PStr "fast";
      raw_memory := PDict [];
      raw_peripheral := PList [];
      raw_feature := PBool true;
      raw_module := PDict [("power_management_enabled", PInt 1)];
      raw_debug := PInt 0
    |})) ∧
  MemIO.json_loads no_memory_document
  = inr (PDict (dict_del "memory" (preset_document stm32f1_config))) ∧
  dict_get "memory" (dict_del "memory" (preset_document stm32f1_config)) = None ∧
  fst (MemIO.load_config_json "custom.json" (world_with no_memory_document)) = inr None.
Proof.
  assert (H1 : MemIO.json_loads mismatched_document = inr (PDict mismatched_dict))
    by (vm_compute; reflexivity).
  assert (H2 : MemIO.json_loads no_memory_document
               = inr (PDict (dict_del "memory" (preset_document stm32f1_config))))
    by (vm_compute; reflexivity).
  pose proof (load_config_json_checks_keys_only MemIO.read_text MemIO.json_loads
                "custom.json" (world_with mismatched_document)) as Ha.
  pose proof (load_config_json_checks_keys_only MemIO.read_text MemIO.json_loads
                "custom.json" (world_with no_memory_document)) as Hb.
  cbv zeta in Ha, Hb.
  destruct Ha as (_ & _ & _ & _ & _ & Ha & _).
  destruct Hb as (_ & _ & _ & _ & Hb & _).
  split; [exact H1|].
  split; [exact (proj1 (Ha mismatched_document mismatched_dict eq_refl H1 eq_refl))|].
  split; [exact H2|]. split; [reflexivity|].
  exact (Hb no_memory_document _ eq_refl H2 eq_refl).
Defined.


(** ** The failures of the codec on concrete inputs *)

(** Saving the stm32f4 preset returns [False] and leaves the beginning of
    a document in the file. *)
Example save_stm32f4_leaves_a_fragment :
  let r := MemIO.save_config_json platforms_init STM32F4
             "generated/stm32f4/platform_config.json" empty_world in
  fst r = inr false ∧
  fs (snd r) !! "generated/stm32f4/platform_config.json"
  = Some ("{" ++ newline_indent 1 ++ q "platform_type" ++ ": ") ∧
  console (snd r)
  = ["保存配置JSON文件失败: Object of type PlatformType is not JSON serializable"].
Proof. repeat split; vm_compute; reflexivity. Qed.

(** The document of the stm32f1 preset loads to an object whose sections
    are dicts; the header renderer raises on it. *)
Example loaded_stm32f1_is_not_the_preset :
  ∃ r,
    fst (MemIO.load_config_json "custom.json" (world_with stm32f1_document))
    = inr (Some (Loaded r)) ∧
    raw_platform_type r = PStr "stm32f1" ∧
    raw_clock r = asdict_clock (clock stm32f1_config) ∧
    header_content STM32F1 (Loaded r)
    = inl (AttributeError "'dict' object has no attribute 'system_clock_freq'").
Proof. eexists. split; [vm_compute; reflexivity|]. by repeat split. Qed.

(** [main] with the stm32f1 document as [--config-file] stops in the header
    renderer and writes no artifact. *)
Example main_with_config_file_raises :
  let r := MemIO.main_platform STM32F1 "generated" (Some "custom.json")
             (world_with stm32f1_document) in
  fst r = inl (AttributeError "'dict' object has no attribute 'system_clock_freq'") ∧
  fs (snd r) = fs (world_with stm32f1_document).
Proof. split; vm_compute; reflexivity. Qed.

(** ** Further runs *)

Lemma renderers_raise_on_loaded_object_witness :
  (<[STM32F1 := Loaded loaded_stm32f1]> platforms_init) !! STM32F1
  = Some (Loaded loaded_stm32f1) ∧
  MemIO.generate_makefile (<[STM32F1 := Loaded loaded_stm32f1]> platforms_init) STM32F1
    "generated/stm32f1/Makefile" empty_world
  = (inl (AttributeError "'dict' object has no attribute 'power_management_enabled'"),
     empty_world).
Proof.
  split; [apply lookup_insert_eq|].
  exact (proj1 (proj2 (renderers_raise_on_loaded_object MemIO.dirname MemIO.makedirs
                         MemIO.open_w MemIO.f_write _ STM32F1 loaded_stm32f1
                         "generated/stm32f1/Makefile" empty_world
                         (lookup_insert_eq _ _ _)))).
Defined.

Lemma generate_makefile_writes_text_witness :
  platforms_init !! STM32F7 = Some (Built stm32f7_config) ∧
  MemIO.generate_makefile platforms_init STM32F7 "generated/stm32f7/Makefile" empty_world
  = (inr true,
     mkWorld (<["generated/stm32f7/Makefile" :=
                  (EmptyString ++ makefile_text STM32F7 stm32f7_config)%string]>
                (<["generated/stm32f7/Makefile" := EmptyString]> ∅))
       ["Makefile生成成功: generated/stm32f7/Makefile"]).
Proof.
  split; [reflexivity|].
  apply (generate_makefile_writes_text MemIO.dirname MemIO.makedirs MemIO.open_w
           MemIO.f_write platforms_init STM32F7 stm32f7_config
           "generated/stm32f7/Makefile" empty_world ∅
           (<["generated/stm32f7/Makefile" := EmptyString]> ∅)); reflexivity.
Defined.

(** The header of the lowest-tier preset defines a DAC count of zero and an
    Ethernet flag of zero. *)
Theorem stm32f1_header_dac_and_ethernet :
  dac_count (peripheral stm32f1_config) = 0%Z ∧
  has_ethernet (feature stm32f1_config) = false ∧
  ∃ text,
    header_content STM32F1 (Built stm32f1_config) = inr text ∧
    has_line "#define RTOS_HW_DAC_COUNT                  0" text = true ∧
    has_line "#define RTOS_HW_SUPPORT_ETHERNET           0" text = true ∧
    has_line "#define STM32F10X_HD                       1" text = true.
Proof.
  split; [reflexivity|]. split; [reflexivity|].
  eexists. split; [reflexivity|].
  repeat split; vm_compute; reflexivity.
Qed.
